(** * PhishGuard: the safety-verdict aggregation engine

    A shallow embedding of [app/service/checker.py] and
    [app/service/phone.py], and the properties of the specification
    that are settled against it.

    Python [str] values are modelled as [string]; a character is a code
    point below 256 (the Latin-1 range), with Python's own
    classification of those code points ([str.isdigit], [str.isspace]).
    Everything outside the process (HTTP probes, the third-party
    reputation services, the browser) is an oracle of the environment
    that may answer differently at each point of the event history. *)

From Stdlib Require Import String Ascii List Bool Arith NArith ZArith Lia.
Import ListNotations.
Local Open Scope list_scope.
Local Open Scope string_scope.

(** ** Python string primitives *)

Module PyStr.

Definition code (c : ascii) : N := N_of_ascii c.

Definition between (lo hi : N) (c : ascii) : bool :=
  ((lo <=? code c) && (code c <=? hi))%N.

(** [c.isdigit()]: the ten ASCII digits and, in the Latin-1 range,
    the superscripts U+00B2, U+00B3 and U+00B9. *)
Definition isdigit (c : ascii) : bool :=
  between 48 57 c || between 178 179 c || (code c =? 185)%N.

(** The decimal digits [0-9]; this is also the regular-expression
    class [\d] on code points below 256. *)
Definition isdecimal (c : ascii) : bool := between 48 57 c.

(** [c.isspace()], the characters removed by [str.strip()]:
    U+0009..U+000D, U+001C..U+0020, U+0085 and U+00A0. *)
Definition isspace (c : ascii) : bool :=
  between 9 13 c || between 28 32 c || (code c =? 133)%N || (code c =? 160)%N.

Definition isascii (c : ascii) : bool := (code c <? 128)%N.

Definition LF : ascii := ascii_of_nat 10.

Fixpoint all (p : ascii -> bool) (s : string) : bool :=
  match s with
  | EmptyString => true
  | String c s' => p c && all p s'
  end.

Fixpoint any (p : ascii -> bool) (s : string) : bool :=
  match s with
  | EmptyString => false
  | String c s' => p c || any p s'
  end.

Fixpoint lstrip (s : string) : string :=
  match s with
  | EmptyString => EmptyString
  | String c s' => if isspace c then lstrip s' else s
  end.

Fixpoint rstrip (s : string) : string :=
  match s with
  | EmptyString => EmptyString
  | String c s' =>
      match rstrip s' with
      | EmptyString => if isspace c then EmptyString else String c EmptyString
      | r => String c r
      end
  end.

(** [s.strip()] *)
Definition strip (s : string) : string := rstrip (lstrip s).

(** [s.startswith(p)] *)
Definition startswith (s p : string) : bool := String.prefix p s.

Fixpoint drop (n : nat) (s : string) : string :=
  match n, s with
  | O, _ => s
  | S _, EmptyString => EmptyString
  | S n', String _ s' => drop n' s'
  end.

(** [s.replace(old, new)]: the non-overlapping occurrences of [old],
    found from the left, are replaced; [skip] counts the characters
    of a matched occurrence that are still to be passed over. *)
Fixpoint replace_from (old new : string) (skip : nat) (s : string) : string :=
  match s with
  | EmptyString => EmptyString
  | String c s' =>
      match skip with
      | S k => replace_from old new k s'
      | O =>
          if String.prefix old s
          then new ++ replace_from old new (String.length old - 1) s'
          else String c (replace_from old new 0 s')
      end
  end.

Fixpoint intersperse (new : string) (s : string) : string :=
  match s with
  | EmptyString => EmptyString
  | String c s' => String c (new ++ intersperse new s')
  end.

Definition replace (s old new : string) : string :=
  match old with
  | EmptyString => new ++ intersperse new s
  | _ => replace_from old new 0 s
  end.

(** [sep.join(parts)] *)
Definition join (sep : string) (parts : list string) : string :=
  String.concat sep parts.

(** [x in xs] for a list of strings *)
Definition contains (xs : list string) (x : string) : bool :=
  existsb (String.eqb x) xs.

(** [s.split(sep)] for a one-character separator; used to count the
    lines of a report. *)
Fixpoint split (sep : ascii) (s : string) : list string :=
  match s with
  | EmptyString => [EmptyString]
  | String c s' =>
      if Ascii.eqb c sep then EmptyString :: split sep s'
      else match split sep s' with
           | [] => [String c EmptyString]
           | l :: ls => String c l :: ls
           end
  end.

(** The number written by a string of decimal digits. *)
Definition digit_value (c : ascii) : N := (code c - 48)%N.

Fixpoint int_from (acc : N) (s : string) : N :=
  match s with
  | EmptyString => acc
  | String c s' => int_from (10 * acc + digit_value c)%N s'
  end.

Definition number (s : string) : N := int_from 0 s.

End PyStr.

(** ** Regular expressions

    The fragment of Python's [re] syntax used by the source, with a
    backtracking matcher in continuation-passing style.  [m r s k]
    holds when some prefix of [s] matches [r] and the continuation
    accepts the rest. *)

Module Re.

Inductive re : Type :=
| Eps : re
| Chr (p : ascii -> bool) : re
| Cat (r1 r2 : re) : re
| Alt (r1 r2 : re) : re
| Rep (r : re) (lo : nat) (hi : option nat) : re   (* r{lo,hi}; [None] is unbounded *)
| NotAhead (r : re) : re                           (* (?!r) *)
| Eol : re.                                        (* $ *)

Definition below (cnt : nat) (hi : option nat) : bool :=
  match hi with
  | Some h => (cnt <? h)%nat
  | None => true
  end.

Fixpoint m (r : re) (s : string) (k : string -> bool) {struct r} : bool :=
  match r with
  | Eps => k s
  | Chr p =>
      match s with
      | EmptyString => false
      | String c s' => if p c then k s' else false
      end
  | Cat r1 r2 => m r1 s (fun s' => m r2 s' k)
  | Alt r1 r2 => if m r1 s k then true else m r2 s k
  | Rep r1 lo hi =>
      (fix loop (fuel cnt : nat) (s0 : string) {struct fuel} : bool :=
         if (if (lo <=? cnt)%nat then k s0 else false) then true
         else
           match fuel with
           | O => false
           | S fuel' =>
               if below cnt hi then
                 m r1 s0 (fun s' =>
                   if ((String.length s' <? String.length s0)%nat || (cnt <? lo)%nat)
                   then loop fuel' (S cnt) s'
                   else false)
               else false
           end) (lo + S (String.length s)) 0 s
  | NotAhead r1 => if m r1 s (fun _ => true) then false else k s
  | Eol =>
      match s with
      | EmptyString => k s
      | String c EmptyString => if Ascii.eqb c PyStr.LF then k s else false
      | _ => false
      end
  end.

(** [re.match(r, s) is not None] *)
Definition matches (r : re) (s : string) : bool := m r s (fun _ => true).

Definition Opt (r : re) : re := Rep r 0 (Some 1).
Definition Plus (r : re) : re := Rep r 1 None.
Definition Star (r : re) : re := Rep r 0 None.

(** Character classes, under [re.IGNORECASE]. *)
Definition lower (c : ascii) : ascii :=
  if PyStr.between 65 90 c then ascii_of_N (PyStr.code c + 32)%N else c.

Definition chr_i (c : ascii) : re := Chr (fun x => Ascii.eqb (lower x) (lower c)).

Fixpoint lit_i (s : string) : re :=
  match s with
  | EmptyString => Eps
  | String c s' => Cat (chr_i c) (lit_i s')
  end.

Definition alpha (c : ascii) : bool := PyStr.between 65 90 (* A-Z *) c || PyStr.between 97 122 c.
Definition hex (c : ascii) : bool := PyStr.between 65 70 c || PyStr.between 97 102 c.
Definition only (c : ascii) (x : ascii) : bool := Ascii.eqb x c.

Definition d : re := Chr PyStr.isdecimal.                                     (* \d *)
Definition S_ : re := Chr (fun c => negb (PyStr.isspace c)).                  (* \S *)
Definition A_Z : re := Chr alpha.                                             (* [A-Z] *)
Definition A_Z0_9 : re := Chr (fun c => alpha c || PyStr.isdecimal c).        (* [A-Z0-9] *)
Definition A_Z0_9_dash : re :=
  Chr (fun c => alpha c || PyStr.isdecimal c || only "-" c).                    (* [A-Z0-9-] *)
Definition A_F0_9 : re := Chr (fun c => hex c || PyStr.isdecimal c).          (* [A-F0-9] *)
Definition A_F0_9_colon : re :=
  Chr (fun c => hex c || PyStr.isdecimal c || only ":" c).                      (* [A-F0-9:] *)
Definition dot : re := Chr (only ".").                                          (* \. *)

Fixpoint seq (rs : list re) : re :=
  match rs with
  | [] => Eps
  | [r] => r
  | r :: rs' => Cat r (seq rs')
  end.

End Re.

(** ** Exceptions, outcomes and the world *)

(** The exception classes the two modules raise, catch or let through.
    [RequestException] stands for every [requests.RequestException]
    that is not a [requests.Timeout] (a refused connection, a failed
    name lookup, a TLS failure); [Exception] for any other subclass of
    Python's [Exception]. *)
Inductive exn : Type :=
| InvalidArgumentError
| OperationFailedError
| InvalidSchemeError
| URLNotFoundError
| URLTimeoutError
| ExtractLevelFailureError
| Timeout                      (* requests.Timeout *)
| RequestException             (* requests.RequestException, not a Timeout *)
| TimeoutException             (* selenium *)
| NoSuchElementException       (* selenium *)
| WebDriverException           (* selenium, any other *)
| Exception (name : string).

Inductive result (A : Type) : Type :=
| Ok (a : A)
| Err (e : exn).
Arguments Ok {A} a.
Arguments Err {A} e.

Module Builtins.

(** The interpreter's limit on the digits of an integer string
    ([sys.int_info.default_max_str_digits]). *)
Definition int_max_str_digits : nat := 4300.

(** [int(s)] for a string of decimal digits: the number written, or
    ValueError when the string is longer than the limit. *)
Definition int (s : string) : result N :=
  if (int_max_str_digits <? String.length s)%nat
  then Err (Exception "ValueError")
  else Ok (PyStr.number s).

End Builtins.

(** A DOM element as the browser hands it over: tag name, visible text
    and child elements.  It is a snapshot of the page at the time of the
    wait that returned it: the searches made below it and the reading
    of its text answer from the snapshot and are not recorded as
    events. *)
#[warnings="-register-all"]
Inductive element : Type :=
| Element (tag : string) (text : string) (children : list element).

Definition tag_name (e : element) : string := let (t, _, _) := e in t.
Definition text (e : element) : string := let (_, x, _) := e in x.
Definition children (e : element) : list element := let (_, _, cs) := e in cs.

Inductive By : Type := CSS_SELECTOR | ID | TAG_NAME | XPATH.

(** The calls made on a browser session. *)
Inductive driver_call : Type :=
| Chrome                                            (* webdriver.Chrome(service, options) *)
| Stealth                                           (* stealth(driver, ...) *)
| Get (url : string)                                (* driver.get(url) *)
| WaitPresence (timeout : nat) (b : By) (value : string)
                                                    (* WebDriverWait(driver, timeout).until(presence_of_element_located(...)) *)
| SendKeys (keys : string)                          (* element.send_keys(keys) *)
| FindElement (b : By) (value : string)             (* driver.find_element(by, value) *)
| Click.                                            (* element.click() *)

Inductive event : Type :=
| HEAD (url : string)                               (* requests.head(url, allow_redirects=True, timeout=5) *)
| POST (url : string) (keyword : string)            (* requests.post(url, headers, json) *)
| Query (node : string) (url : string)              (* is_safe of a URL checker node *)
| Driver (c : driver_call)
| Quit                                              (* driver.quit() *)
| Sleep (seconds : nat).                            (* time.sleep(seconds) *)

Definition history := list event.

Record response : Type := {
  status_code : nat;
  response_url : string   (* response.url, the final location *)
}.

(** A field of the scam-report answer: absent, [null], or a value. *)
Inductive field : Type := Missing | Null | Value.

Record scam_data : Type := {
  whowho : field;
  kisa : field;
  thecheat : field
}.

Record scam_response : Type := {
  scam_status : nat;
  scam_json : result scam_data           (* response.json()["data"] *)
}.

(** The environment: what each external call answers, given the calls
    made so far. *)
Record Env : Type := {
  head : history -> string -> result response;
  post : history -> string -> string -> result scam_response;
  url_node : history -> string -> string -> result bool;
  browser : history -> driver_call -> result element
}.

(** The state threaded through a call: the history of external calls,
    in order, and the number of browser sessions that are open. *)
Record world : Type := {
  trace : history;
  sessions : nat
}.

Inductive outcome (A : Type) : Type :=
| Return (a : A)
| Raise (e : exn)
| OutOfFuel.
Arguments Return {A} a.
Arguments Raise {A} e.
Arguments OutOfFuel {A}.

Definition M (A : Type) : Type := world -> outcome A * world.

Definition ret {A} (a : A) : M A := fun w => (Return a, w).
Definition raise {A} (e : exn) : M A := fun w => (Raise e, w).
Definition out_of_fuel {A} : M A := fun w => (OutOfFuel, w).

Definition bind {A B} (c : M A) (f : A -> M B) : M B :=
  fun w =>
    match c w with
    | (Return a, w') => f a w'
    | (Raise e, w') => (Raise e, w')
    | (OutOfFuel, w') => (OutOfFuel, w')
    end.

(** [try: c  except ...: h]: the handler receives the exception; a
    clause that does not apply re-raises it. *)
Definition try_except {A} (c : M A) (h : exn -> M A) : M A :=
  fun w =>
    match c w with
    | (Raise e, w') => h e w'
    | r => r
    end.

Declare Scope py_scope.
Delimit Scope py_scope with py.
Notation "x <- c ;; f" := (bind c (fun x => f))
  (at level 61, c at next level, right associativity) : py_scope.
Notation "c ;; f" := (bind c (fun _ => f))
  (at level 61, right associativity) : py_scope.
Local Open Scope py_scope.

Definition lift {A} (r : result A) : M A :=
  match r with
  | Ok a => ret a
  | Err e => raise e
  end.

Definition emit (e : event) : M unit :=
  fun w => (Return tt, {| trace := (trace w ++ [e])%list; sessions := sessions w |}).

Definition history_so_far : M history := fun w => (Return (trace w), w).

Definition open_session : M unit :=
  fun w => (Return tt, {| trace := trace w; sessions := S (sessions w) |}).

Definition close_session : M unit :=
  fun w => (Return tt, {| trace := trace w; sessions := pred (sessions w) |}).

Definition requests_head (env : Env) (u : string) : M response :=
  h <- history_so_far ;;
  emit (HEAD u) ;;
  lift (head env h u).

Definition requests_post (env : Env) (u keyword : string) : M scam_response :=
  h <- history_so_far ;;
  emit (POST u keyword) ;;
  lift (post env h u keyword).

Definition driver (env : Env) (c : driver_call) : M element :=
  h <- history_so_far ;;
  emit (Driver c) ;;
  lift (browser env h c).

(** [webdriver.Chrome(...)]: a session is open once the call returns. *)
Definition webdriver_Chrome (env : Env) : M unit :=
  driver env Chrome ;; open_session.

(** [driver.quit()] *)
Definition driver_quit : M unit :=
  emit Quit ;; close_session.

Definition time_sleep (seconds : nat) : M unit := emit (Sleep seconds).

(** ** app/service/phone.py *)

Module OneOneFourPhoneSafeChecker.

Definition present (f : field) : result bool :=
  match f with
  | Missing => Err (Exception "KeyError")
  | Null => Ok false
  | Value => Ok true
  end.

(** [data["whowho"] is not None or data["kisa"] is not None or
    data["thecheat"] is not None], evaluated left to right. *)
Definition reported (data : scam_data) : M bool :=
  a <- lift (present (whowho data)) ;;
  if a then ret true else
  b <- lift (present (kisa data)) ;;
  if b then ret true else
  lift (present (thecheat data)).

Definition is_safe (env : Env) (phone_number : string) : M bool :=
  try_except
    (let url := "https://www.114.co.kr/action/search/scam" in
     response <- requests_post env url phone_number ;;
     if negb (scam_status response =? 200)%nat
     then raise (Exception "Exception")
     else
       data <- lift (scam_json response) ;;
       r <- reported data ;;
       if r then ret false else ret true)
    (fun e => raise e).

End OneOneFourPhoneSafeChecker.

Module TheCallPhoneSafeChecker.

Definition _MAX_RETRIES : nat := 3.

Definition is_safe (env : Env) (phone_number : string) : M bool :=
  try_except
    (webdriver_Chrome env ;;
     driver env Stealth ;;
     driver env (Get "https://www.thecall.co.kr/") ;;
     driver env (WaitPresence 10 CSS_SELECTOR
                   "#sidebar > section.number_search > form > input.stx") ;;
     driver env (SendKeys phone_number) ;;
     driver env (FindElement CSS_SELECTOR
                   "#sidebar > section.number_search > form > input.primary-button") ;;
     driver env Click ;;
     is_safe <- try_except
       (driver env (WaitPresence 10 CSS_SELECTOR
          "#content-below-adsense-top > div.board-view > article > section > div.article-vote > a:nth-child(1) > span") ;;
        ret false)
       (fun e => match e with
                 | TimeoutException => ret true
                 | _ => raise e
                 end) ;;
     driver_quit ;;
     ret is_safe)
    (fun e => raise e).

End TheCallPhoneSafeChecker.

Module MissedCallPhoneSafeChecker.

Definition _MAX_RETRIES : nat := 3.

(** The digits at the head of [s] and what follows them. *)
Fixpoint span_digits (s : string) : string * string :=
  match s with
  | EmptyString => (EmptyString, EmptyString)
  | String c s' =>
      if PyStr.isdecimal c
      then let (ds, rest) := span_digits s' in (String c ds, rest)
      else (EmptyString, s)
  end.

(** [re.search(r"\(Lv\.(\d+)\)", text)]: group 1 of the leftmost
    match.  At a given position the pattern can match in one way only:
    the literal "(Lv.", every digit that follows, then ")". *)
Fixpoint search_level (s : string) : option string :=
  match s with
  | EmptyString => None
  | String _ s' =>
      if PyStr.startswith s "(Lv."
      then match span_digits (PyStr.drop 4 s) with
           | (String d ds, String ")" _) => Some (String d ds)
           | _ => search_level s'
           end
      else search_level s'
  end.

Definition _extract_level (text : string) : result N :=
  match search_level text with
  | Some g => Builtins.int g
  | None => Err ExtractLevelFailureError
  end.

(** [element.find_element(By.TAG_NAME, tag)]: the first descendant, in
    document order, with that tag. *)
Fixpoint find_by_tag (tag : string) (e : element) : option element :=
  match e with
  | Element _ _ cs =>
      (fix first (cs : list element) : option element :=
         match cs with
         | [] => None
         | c :: cs' =>
             if String.eqb (tag_name c) tag then Some c
             else match find_by_tag tag c with
                  | Some x => Some x
                  | None => first cs'
                  end
         end) cs
  end.

Fixpoint _find_sup (e : element) : option element :=
  match e with
  | Element _ _ cs =>
      match find_by_tag "sup" e with
      | Some x => Some x
      | None =>                                   (* except NoSuchElementException *)
          (fix each (cs : list element) : option element :=
             match cs with
             | [] => None
             | child :: cs' =>
                 match _find_sup child with
                 | Some sup_element => Some sup_element
                 | None => each cs'
                 end
             end) cs
      end
  end.

(** How one pass through the body of the [while] loop ends. *)
Inductive pass : Type :=
| Break (is_safe : bool)
| Again (retry_count : nat).

Fixpoint retry (env : Env) (fuel : nat) (retry_count : nat) (is_safe : bool)
  : M bool :=
  if (retry_count <? _MAX_RETRIES)%nat then
    match fuel with
    | O => out_of_fuel
    | S fuel' =>
        p <- try_except
          (result_is_spam <- driver env (WaitPresence 10 ID "result_is_spam") ;;
           match _find_sup result_is_spam with
           | None => raise ExtractLevelFailureError
           | Some sup_element =>
               let spam_level_text := text sup_element in
               spam_level <- lift (_extract_level spam_level_text) ;;
               if (0 <? spam_level)%N then ret (Break false) else ret (Break true)
           end)
          (fun e =>
             match e with
             | ExtractLevelFailureError =>
                 if (retry_count <? _MAX_RETRIES)%nat then
                   time_sleep 3 ;;
                   ret (Again (retry_count + 1))
                 else raise e
             | _ => raise e
             end) ;;
        match p with
        | Break b => ret b
        | Again n => retry env fuel' n is_safe
        end
    end
  else ret is_safe.

Definition is_safe (env : Env) (phone_number : string) : M bool :=
  try_except
    (webdriver_Chrome env ;;
     driver env Stealth ;;
     driver env (Get "http://www.missed-call.com/") ;;
     driver env (WaitPresence 10 ID "pnum") ;;
     driver env (SendKeys phone_number) ;;
     driver env (FindElement ID "submitButton") ;;
     driver env Click ;;
     is_safe <- retry env _MAX_RETRIES 0 false ;;
     driver_quit ;;
     ret is_safe)
    (fun e => raise e).

End MissedCallPhoneSafeChecker.

(** ** app/service/checker.py *)

Module SafeChecker.

(** The override lists held by an instance.  The node registries are
    fixed by the class and appear in the two check operations. *)
Record t : Type := {
  _phone_whitelist : list string;
  _phone_blacklist : list string;
  _url_whitelist : list string;
  _url_blacklist : list string
}.

Definition __init__ : t := {|
  _phone_whitelist := ["01092563688"];
  _phone_blacklist := ["01082539451"];
  _url_whitelist := ["https://sds.co.kr"];
  _url_blacklist := ["http://r3born.cc"]
|}.

Import Re.

(** (\d{1,3}\.\d{1,3}\.\d{1,3}\.\d{1,3}) *)
Definition ipv4 : re :=
  let octet := Rep d 1 (Some 3) in
  seq [octet; dot; octet; dot; octet; dot; octet].

(** \[?[A-F0-9]*:[A-F0-9:]+\]? *)
Definition ipv6 : re :=
  seq [Opt (Chr (only "[")); Star A_F0_9; Chr (only ":"); Plus A_F0_9_colon;
       Opt (Chr (only "]"))].

(** (?:[A-Z0-9](?:[A-Z0-9-]{0,61}[A-Z0-9])?\.)+ *)
Definition labels : re :=
  Plus (seq [A_Z0_9; Opt (Cat (Rep A_Z0_9_dash 0 (Some 61)) A_Z0_9); dot]).

(** (?:[A-Z]{2,6}\.?|[A-Z0-9-]{2,}\.?) *)
Definition tld : re :=
  Alt (Cat (Rep A_Z 2 (Some 6)) (Opt dot))
      (Cat (Rep A_Z0_9_dash 2 None) (Opt dot)).

Definition regex : re :=
  seq [ Opt (seq [lit_i "http"; Opt (lit_i "s"); lit_i "://"]);   (* optional scheme *)
        Alt (seq [NotAhead (Alt ipv4 ipv6); labels; tld])         (* domain, no IP address *)
            (lit_i "localhost");                                  (* localhost *)
        Opt (Cat (Chr (only ":")) (Plus d));                      (* optional port *)
        Alt (Opt (Chr (only "/")))
            (Cat (Chr (fun c => only "/" c || only "?" c)) (Plus S_));
        Eol ].

Definition _is_url (url : string) : bool := Re.matches regex url.

Definition _ensure_scheme (url scheme : string) : string :=
  if negb (PyStr.startswith url (scheme ++ "://"))
  then scheme ++ "://" ++ url
  else url.

Definition _get_url_with_scheme (env : Env) (url : string) : M string :=
  r <- try_except
    (let https_url := _ensure_scheme url "https" in
     requests_head env https_url ;;
     ret (Some https_url))
    (fun e => match e with
              | Timeout => raise URLTimeoutError
              | RequestException => ret None
              | _ => raise e
              end) ;;
  match r with
  | Some https_url => ret https_url
  | None =>
      r <- try_except
        (let http_url := _ensure_scheme url "http" in
         requests_head env http_url ;;
         ret (Some http_url))
        (fun e => match e with
                  | Timeout => raise URLTimeoutError
                  | RequestException => ret None
                  | _ => raise e
                  end) ;;
      match r with
      | Some http_url => ret http_url
      | None => raise InvalidSchemeError
      end
  end.

Definition _expand_short_url (env : Env) (url : string) : M string :=
  response <- try_except
    (requests_head env url)
    (fun e => match e with
              | Timeout => raise URLTimeoutError
              | _ => raise e
              end) ;;
  if (status_code response =? 404)%nat then raise URLNotFoundError
  else if ((status_code response =? 301) || (status_code response =? 302))%nat
       then ret (response_url response)
       else ret url.

Definition _preprocess_url (env : Env) (url : string) : M string :=
  let url := PyStr.strip url in
  let is_url := _is_url url in
  if negb is_url then raise InvalidArgumentError
  else
    url_with_scheme <- _get_url_with_scheme env url ;;
    expanded_url <- _expand_short_url env url_with_scheme ;;
    ret expanded_url.

(** [is_safe] of the URL checker node registered under [node]: a call
    to an external reputation or registration service. *)
Definition url_is_safe (env : Env) (node : string) (url : string) : M bool :=
  h <- history_so_far ;;
  emit (Query node url) ;;
  lift (url_node env h node url).

(** The f-string of one node's report line. *)
Definition node_report (node checker : string) (node_ok : bool) : string :=
  node ++ "(" ++ checker ++ "): " ++ (if node_ok then "ok" else "suspicious").

(** ["\n".join(f"- {report}" for report in reports)] *)
Definition join_reports (reports : list string) : string :=
  PyStr.join (String PyStr.LF "") (map (fun report => "- " ++ report) reports).

Definition check_url_safety (self : t) (env : Env) (url : string)
  : M (bool * string) :=
  pre <- try_except
    (url <- _preprocess_url env url ;; ret (inl url))
    (fun e => match e with
              | URLNotFoundError | URLTimeoutError | InvalidSchemeError =>
                  ret (inr (true, "URL is not accessible"))
              | _ => raise InvalidArgumentError
              end) ;;
  match pre with
  | inr early => ret early
  | inl url =>
      try_except
        (if PyStr.contains (_phone_whitelist self) url
         then ret (true, "Valid url which listed on whitelist")
         else if PyStr.contains (_phone_blacklist self) url
         then ret (false, "Invalid url which listed on blacklist")
         else
           node_1_ok <- url_is_safe env "Node_1" url ;;
           node_2_ok <- url_is_safe env "Node_2" url ;;
           node_3_ok <- url_is_safe env "Node_3" url ;;
           let ok := if node_1_ok && node_2_ok && node_3_ok then true else false in
           let node_1_report := node_report "Node_1" "PhishtankURLSafeChecker" node_1_ok in
           let node_2_report := node_report "Node_2" "WhoXYURLSafeChecker" node_2_ok in
           let node_3_report := node_report "Node_3" "KISAURLSafeChecker" node_3_ok in
           let report := join_reports [node_1_report; node_2_report; node_3_report] in
           ret (ok, report))
        (fun _ => raise OperationFailedError)
  end.

Definition allowed (c : ascii) : bool :=
  PyStr.isdigit c || Ascii.eqb c "-" || Ascii.eqb c " ".

Definition _normalize_phone_number (phone_number : string) : result string :=
  let phone_number := PyStr.strip phone_number in
  if negb (PyStr.all allowed phone_number) then Err InvalidArgumentError
  else
    let normalized_phone_number :=
      PyStr.replace (PyStr.replace phone_number "-" "") " " "" in
    Ok normalized_phone_number.

Definition check_phone_safety (self : t) (env : Env) (phone_number : string)
  : M (bool * string) :=
  phone_number <- try_except
    (lift (_normalize_phone_number phone_number))
    (fun _ => raise InvalidArgumentError) ;;
  try_except
    (if PyStr.contains (_phone_whitelist self) phone_number
     then ret (true, "Valid phone number which listed on whitelist")
     else if PyStr.contains (_phone_blacklist self) phone_number
     then ret (false, "Invalid phone number which listed on blacklist")
     else
       node_1_ok <- OneOneFourPhoneSafeChecker.is_safe env phone_number ;;
       node_2_ok <- TheCallPhoneSafeChecker.is_safe env phone_number ;;
       node_3_ok <- MissedCallPhoneSafeChecker.is_safe env phone_number ;;
       let ok := if node_1_ok && node_2_ok && node_3_ok then true else false in
       let node_1_report := node_report "Node_1" "OneOneFourPhoneSafeChecker" node_1_ok in
       let node_2_report := node_report "Node_2" "TheCallPhoneSafeChecker" node_2_ok in
       let node_3_report := node_report "Node_3" "MissedCallPhoneSafeChecker" node_3_ok in
       let report := join_reports [node_1_report; node_2_report; node_3_report] in
       ret (ok, report))
    (fun _ => raise OperationFailedError).

End SafeChecker.

Definition world0 : world := {| trace := []; sessions := 0 |}.

(** ** app/service/url.py: the helpers of the URL checker nodes *)

(** A value decoded by [json.loads].  Of a float only whether it is
    zero matters to the functions below. *)
#[warnings="-register-all"]
Inductive json : Type :=
| JNull
| JBool (b : bool)
| JInt (n : Z)
| JFloat (zero : bool)
| JStr (s : string)
| JList (items : list json)
| JDict (entries : list (string * json)).

Module Py.

Definition KeyError : exn := Exception "KeyError".
Definition TypeError : exn := Exception "TypeError".
Definition AttributeError : exn := Exception "AttributeError".

Definition and_then {A B} (r : result A) (f : A -> result B) : result B :=
  match r with
  | Ok a => f a
  | Err e => Err e
  end.

Fixpoint lookup (key : string) (entries : list (string * json)) : option json :=
  match entries with
  | [] => None
  | (k, v) :: rest => if String.eqb k key then Some v else lookup key rest
  end.

(** [x[key]] for a string key *)
Definition getitem (x : json) (key : string) : result json :=
  match x with
  | JDict entries =>
      match lookup key entries with
      | Some v => Ok v
      | None => Err KeyError
      end
  | _ => Err TypeError
  end.

(** [bool(x)] *)
Definition truthy (x : json) : bool :=
  match x with
  | JNull => false
  | JBool b => b
  | JInt n => negb (n =? 0)%Z
  | JFloat zero => negb zero
  | JStr s => negb (String.eqb s "")
  | JList items => match items with [] => false | _ => true end
  | JDict entries => match entries with [] => false | _ => true end
  end.

(** [c.lower()] on a code point below 256: the ASCII capitals and the
    Latin-1 capitals U+00C0..U+00DE, the sign U+00D7 apart. *)
Definition lower_char (c : ascii) : ascii :=
  if PyStr.between 65 90 c
     || (PyStr.between 192 222 c && negb (PyStr.code c =? 215)%N)
  then ascii_of_N (PyStr.code c + 32)%N
  else c.

Fixpoint lower (s : string) : string :=
  match s with
  | EmptyString => EmptyString
  | String c s' => String (lower_char c) (lower s')
  end.

(** [x.lower()] *)
Definition lower_of (x : json) : result string :=
  match x with
  | JStr s => Ok (lower s)
  | _ => Err AttributeError
  end.

Fixpoint chars (s : string) : list json :=
  match s with
  | EmptyString => []
  | String c s' => JStr (String c EmptyString) :: chars s'
  end.

(** [iter(x)]: the items of a list, the characters of a string, the
    keys of a dict. *)
Definition iterate (x : json) : result (list json) :=
  match x with
  | JList items => Ok items
  | JStr s => Ok (chars s)
  | JDict entries => Ok (map (fun kv => JStr (fst kv)) entries)
  | _ => Err TypeError
  end.

(** [[x.lower() for x in xs]]: the whole list is built, or the first
    failure is raised. *)
Fixpoint lower_each (xs : list json) : result (list string) :=
  match xs with
  | [] => Ok []
  | x :: rest =>
      and_then (lower_of x) (fun s =>
      and_then (lower_each rest) (fun ss => Ok (s :: ss)))
  end.

End Py.

Definition ResponseParseFailure : exn := Exception "ResponseParseFailure".
Definition PhishtankExtractionFailureError : exn :=
  Exception "PhishtankExtractionFailureError".

Definition suspicious_statuses : list string := ["clienthold"; "inactive"].

(** The [for] loop shared by the two status heuristics: it returns at
    the first status found among the suspicious ones. *)
Fixpoint any_suspicious (domain_statuses : list string) : bool :=
  match domain_statuses with
  | [] => false
  | domain_status :: rest =>
      if PyStr.contains suspicious_statuses domain_status then true
      else any_suspicious rest
  end.

Module PhishtankURLSafeChecker.

(** [re.findall(r"\d+", string)]: the maximal runs of decimal digits,
    from the left; [run] is the run being read. *)
Fixpoint findall_digits (run : string) (s : string) : list string :=
  match s with
  | EmptyString =>
      match run with
      | EmptyString => []
      | _ => [run]
      end
  | String c s' =>
      if PyStr.isdecimal c then findall_digits (run ++ String c EmptyString) s'
      else match run with
           | EmptyString => findall_digits EmptyString s'
           | _ => run :: findall_digits EmptyString s'
           end
  end.

Definition _extract_number_from_string (string : string) : result N :=
  let numbers := findall_digits EmptyString string in
  match numbers with
  | [] => Err PhishtankExtractionFailureError
  | first :: _ => Builtins.int first
  end.

End PhishtankURLSafeChecker.

Module WhoXYURLSafeChecker.

Definition _has_suspicious_status (whois_data : json) : result bool :=
  Py.and_then (Py.getitem whois_data "domain_status") (fun domain_statuses =>
  if negb (Py.truthy domain_statuses) then Err ResponseParseFailure
  else
    Py.and_then (Py.iterate domain_statuses) (fun items =>
    Py.and_then (Py.lower_each items) (fun domain_statuses =>
    Ok (any_suspicious domain_statuses)))).

Definition _has_anonymized_registrant (whois_data : json) : result bool :=
  Py.and_then (Py.getitem whois_data "registrant_contact") (fun registrant_contact =>
  if negb (Py.truthy registrant_contact) then Err ResponseParseFailure
  else
    Py.and_then (Py.getitem registrant_contact "company_name") (fun name =>
    Py.and_then (Py.lower_of name) (fun company_name =>
    if PyStr.startswith company_name "redacted" then Ok true else Ok false))).

End WhoXYURLSafeChecker.

Module KISAURLSafeChecker.

Definition _has_suspicious_status (whois_data : json) : result bool :=
  Py.and_then (Py.getitem whois_data "domainStatus") (fun domain_statuses =>
  if negb (Py.truthy domain_statuses) then Ok false
  else
    Py.and_then (Py.iterate domain_statuses) (fun items =>
    Py.and_then (Py.lower_each items) (fun domain_statuses =>
    Ok (any_suspicious domain_statuses)))).

Definition _has_anonymized_registrant (whois_data : json) : result bool :=
  Py.and_then (Py.getitem whois_data "regName") (fun name =>
  Py.and_then (Py.lower_of name) (fun registrant_name =>
  if PyStr.startswith registrant_name "redacted" then Ok true else Ok false)).

End KISAURLSafeChecker.

(** ** app/server.py: the two routes *)

Module APIServer.

(** [StatusCode] *)
Definition OK : nat := 200.
Definition BAD_REQUEST : nat := 400.
Definition INTERNAL_SERVER_ERROR : nat := 500.

(** The object handed to [jsonify]: the status and, for a completed
    check, the verdict and the report. *)
Record reply : Type := {
  status : nat;
  is_safe : option bool;
  report : option string
}.

(** [data.get(key)] on the decoded body: the value under the key, or
    [None], for a dict; AttributeError for any other value. *)
Definition get (data : json) (key : string) : result json :=
  match data with
  | JDict entries =>
      match Py.lookup key entries with
      | Some v => Ok v
      | None => Ok JNull
      end
  | _ => Err Py.AttributeError
  end.

(** [self._checker.check_phone_safety(phone_number=x)] for the value [x]
    of the field.  A value that is not a str has no [strip]: the
    AttributeError is raised in [_normalize_phone_number], inside the
    first [try] of the check. *)
Definition checker_check_phone_safety (checker : SafeChecker.t) (env : Env)
  (x : json) : M (bool * string) :=
  match x with
  | JStr phone_number => SafeChecker.check_phone_safety checker env phone_number
  | _ => try_except (raise Py.AttributeError) (fun _ => raise InvalidArgumentError)
  end.

(** [self._checker.check_url_safety(url=x)]: for a value that is not a
    str the AttributeError of [url.strip()] is raised in
    [_preprocess_url], inside the first [try] of the check. *)
Definition checker_check_url_safety (checker : SafeChecker.t) (env : Env)
  (x : json) : M (bool * string) :=
  match x with
  | JStr url => SafeChecker.check_url_safety checker env url
  | _ => try_except
           (raise Py.AttributeError)
           (fun e => match e with
                     | URLNotFoundError | URLTimeoutError | InvalidSchemeError =>
                         ret (true, "URL is not accessible")
                     | _ => raise InvalidArgumentError
                     end)
  end.

(** The route [/check/phone]; [request_json] is what [request.json]
    gives: the decoded body, or the exception it raises. *)
Definition check_phone_safety (checker : SafeChecker.t) (env : Env)
  (request_json : result json) : M reply :=
  data <- lift request_json ;;
  phone_number <- lift (get data "phone_number") ;;
  try_except
    (r <- checker_check_phone_safety checker env phone_number ;;
     let (ok, report) := r in
     ret {| status := OK; is_safe := Some ok; report := Some report |})
    (fun e => match e with
              | InvalidArgumentError =>
                  ret {| status := BAD_REQUEST; is_safe := None; report := None |}
              | OperationFailedError =>
                  ret {| status := INTERNAL_SERVER_ERROR; is_safe := None;
                         report := None |}
              | _ => raise e
              end).

(** The route [/check/url]. *)
Definition check_url_safety (checker : SafeChecker.t) (env : Env)
  (request_json : result json) : M reply :=
  data <- lift request_json ;;
  url <- lift (get data "url") ;;
  try_except
    (r <- checker_check_url_safety checker env url ;;
     let (ok, report) := r in
     ret {| status := OK; is_safe := Some ok; report := Some report |})
    (fun e => match e with
              | InvalidArgumentError =>
                  ret {| status := BAD_REQUEST; is_safe := None; report := None |}
              | OperationFailedError =>
                  ret {| status := INTERNAL_SERVER_ERROR; is_safe := None;
                         report := None |}
              | _ => raise e
              end).

End APIServer.

(** * Properties *)

(** ** Strings *)

(** [s] without the occurrences of the character [a]. *)
Fixpoint remove (a : ascii) (s : string) : string :=
  match s with
  | EmptyString => EmptyString
  | String c s' => if Ascii.eqb a c then remove a s' else String c (remove a s')
  end.

Lemma prefix_empty (s : string) : String.prefix "" s = true.
Proof. destruct s; reflexivity. Qed.

Lemma replace_char (a : ascii) (s : string) :
  PyStr.replace s (String a "") "" = remove a s.
Proof.
  unfold PyStr.replace.
  induction s as [|c s IH]; simpl; [reflexivity|].
  destruct (ascii_dec a c) as [->|Hne].
  - rewrite Ascii.eqb_refl, prefix_empty. simpl. exact IH.
  - destruct (Ascii.eqb_spec a c) as [E|_]; [contradiction|].
    now rewrite IH.
Qed.

Lemma all_lstrip p s : PyStr.all p s = true -> PyStr.all p (PyStr.lstrip s) = true.
Proof.
  induction s as [|c s IH]; simpl; [trivial|].
  intros H. apply andb_true_iff in H as [Hc Hs].
  destruct (PyStr.isspace c); [auto|]. simpl. now rewrite Hc, Hs.
Qed.

Lemma all_rstrip p s : PyStr.all p s = true -> PyStr.all p (PyStr.rstrip s) = true.
Proof.
  induction s as [|c s IH]; simpl; [trivial|].
  intros H. apply andb_true_iff in H as [Hc Hs]. specialize (IH Hs).
  destruct (PyStr.rstrip s) as [|c' r].
  - destruct (PyStr.isspace c); simpl; [reflexivity|now rewrite Hc].
  - change (PyStr.all p (String c (String c' r)) = true).
    simpl in *. now rewrite Hc, IH.
Qed.

Lemma all_strip p s : PyStr.all p s = true -> PyStr.all p (PyStr.strip s) = true.
Proof. intros H. unfold PyStr.strip. now apply all_rstrip, all_lstrip. Qed.

Lemma all_remove p a s : PyStr.all p s = true -> PyStr.all p (remove a s) = true.
Proof.
  induction s as [|c s IH]; simpl; [trivial|].
  intros H. apply andb_true_iff in H as [Hc Hs].
  destruct (Ascii.eqb a c); simpl; [auto|]. now rewrite Hc, IH.
Qed.

Lemma all_impl (p q : ascii -> bool) s :
  (forall c, p c = true -> q c = true) ->
  PyStr.all p s = true -> PyStr.all q s = true.
Proof.
  intros Hpq. induction s as [|c s IH]; simpl; [trivial|].
  intros H. apply andb_true_iff in H as [Hc Hs]. now rewrite (Hpq _ Hc), IH.
Qed.

Lemma all_and (p q : ascii -> bool) s :
  PyStr.all p s = true -> PyStr.all q s = true ->
  PyStr.all (fun c => p c && q c) s = true.
Proof.
  induction s as [|c s IH]; simpl; [trivial|].
  intros H1 H2. apply andb_true_iff in H1 as [-> H1], H2 as [-> H2]. simpl. auto.
Qed.

(** Stripping a string that neither starts nor ends with white space
    leaves it as it is. *)
Lemma lstrip_no_space s :
  PyStr.all (fun c => negb (PyStr.isspace c)) s = true -> PyStr.lstrip s = s.
Proof.
  destruct s as [|c s]; simpl; [trivial|].
  intros H. apply andb_true_iff in H as [Hc _].
  now destruct (PyStr.isspace c).
Qed.

Lemma rstrip_no_space s :
  PyStr.all (fun c => negb (PyStr.isspace c)) s = true -> PyStr.rstrip s = s.
Proof.
  induction s as [|c s IH]; simpl; [trivial|].
  intros H. apply andb_true_iff in H as [Hc Hs]. rewrite (IH Hs).
  destruct s; [|reflexivity]. now destruct (PyStr.isspace c).
Qed.

Lemma strip_no_space s :
  PyStr.all (fun c => negb (PyStr.isspace c)) s = true -> PyStr.strip s = s.
Proof.
  intros H. unfold PyStr.strip. rewrite (lstrip_no_space _ H). now apply rstrip_no_space.
Qed.

Lemma remove_absent a s :
  PyStr.all (fun c => negb (Ascii.eqb a c)) s = true -> remove a s = s.
Proof.
  induction s as [|c s IH]; simpl; [trivial|].
  intros H. apply andb_true_iff in H as [Hc Hs].
  destruct (Ascii.eqb a c); [discriminate|]. now rewrite IH.
Qed.

(** The characters classified as digits: none is white space, a hyphen
    or a space, and the ASCII ones are the decimal digits. *)
Lemma isdigit_not_space c : PyStr.isdigit c = true -> PyStr.isspace c = false.
Proof. destruct c as [[] [] [] [] [] [] [] []]; vm_compute; congruence. Qed.

Lemma isdigit_not_hyphen c : PyStr.isdigit c = true -> Ascii.eqb "-" c = false.
Proof. destruct c as [[] [] [] [] [] [] [] []]; vm_compute; congruence. Qed.

Lemma isdigit_not_blank c : PyStr.isdigit c = true -> Ascii.eqb " " c = false.
Proof. destruct c as [[] [] [] [] [] [] [] []]; vm_compute; congruence. Qed.

Lemma isdigit_ascii c :
  PyStr.isdigit c = true -> PyStr.isascii c = true -> PyStr.isdecimal c = true.
Proof. destruct c as [[] [] [] [] [] [] [] []]; vm_compute; congruence. Qed.

Lemma any_lstrip p s :
  (forall c, p c = true -> PyStr.isspace c = false) ->
  PyStr.any p (PyStr.lstrip s) = PyStr.any p s.
Proof.
  intros Hp. induction s as [|c s IH]; simpl; [reflexivity|].
  destruct (PyStr.isspace c) eqn:E; [|reflexivity].
  destruct (p c) eqn:Ec; [|exact IH].
  apply Hp in Ec. congruence.
Qed.

Lemma any_rstrip p s :
  (forall c, p c = true -> PyStr.isspace c = false) ->
  PyStr.any p (PyStr.rstrip s) = PyStr.any p s.
Proof.
  intros Hp. induction s as [|c s IH]; simpl; [reflexivity|].
  destruct (PyStr.rstrip s) as [|c' r].
  - simpl in IH. rewrite <- IH.
    destruct (PyStr.isspace c) eqn:E; simpl.
    + destruct (p c) eqn:Ec; [|reflexivity]. apply Hp in Ec. congruence.
    + reflexivity.
  - change (PyStr.any p (String c (String c' r))) with (p c || PyStr.any p (String c' r)).
    now rewrite IH.
Qed.

Lemma any_strip p s :
  (forall c, p c = true -> PyStr.isspace c = false) ->
  PyStr.any p (PyStr.strip s) = PyStr.any p s.
Proof.
  intros Hp. unfold PyStr.strip. now rewrite any_rstrip, any_lstrip.
Qed.

(** ** Phone normalization *)

(** What [_normalize_phone_number] returns when it does not raise. *)
Definition canonical (phone_number : string) : string :=
  remove " " (remove "-" (PyStr.strip phone_number)).

Lemma normalize_unfold (s : string) :
  SafeChecker._normalize_phone_number s =
  if PyStr.all SafeChecker.allowed (PyStr.strip s) then Ok (canonical s)
  else Err InvalidArgumentError.
Proof.
  unfold SafeChecker._normalize_phone_number, canonical.
  cbv zeta.
  destruct (PyStr.all SafeChecker.allowed (PyStr.strip s)); cbn [negb]; [|reflexivity].
  now rewrite (replace_char "-"), (replace_char " ").
Qed.

Lemma allowed_cases c :
  SafeChecker.allowed c = true ->
  PyStr.isdigit c = true \/ c = "-"%char \/ c = " "%char.
Proof.
  unfold SafeChecker.allowed. intros H.
  apply orb_true_iff in H as [H|H]; [apply orb_true_iff in H as [H|H]|].
  - now left.
  - right; left. now apply Ascii.eqb_eq.
  - right; right. now apply Ascii.eqb_eq.
Qed.

Lemma remove_cons_digit c p :
  PyStr.isdigit c = true ->
  remove " " (remove "-" (String c p)) = String c (remove " " (remove "-" p)).
Proof.
  intros Hd. cbn [remove]. rewrite (isdigit_not_hyphen _ Hd).
  cbn [remove]. now rewrite (isdigit_not_blank _ Hd).
Qed.

Lemma remove_cons_hyphen p :
  remove " " (remove "-" (String "-" p)) = remove " " (remove "-" p).
Proof. reflexivity. Qed.

Lemma remove_cons_blank p :
  remove " " (remove "-" (String " " p)) = remove " " (remove "-" p).
Proof. reflexivity. Qed.

Lemma stripped_digits p :
  PyStr.all SafeChecker.allowed p = true ->
  PyStr.all PyStr.isdigit (remove " " (remove "-" p)) = true.
Proof.
  induction p as [|c p IH]; [trivial|].
  cbn [PyStr.all]. intros H. apply andb_true_iff in H as [Hc Hp]. specialize (IH Hp).
  destruct (allowed_cases _ Hc) as [Hd | [-> | ->]].
  - rewrite (remove_cons_digit _ _ Hd). cbn [PyStr.all]. now rewrite Hd.
  - now rewrite remove_cons_hyphen.
  - now rewrite remove_cons_blank.
Qed.

Lemma stripped_empty p :
  PyStr.all SafeChecker.allowed p = true ->
  (remove " " (remove "-" p) = "" <-> PyStr.any PyStr.isdigit p = false).
Proof.
  induction p as [|c p IH]; [intros _; split; reflexivity|].
  cbn [PyStr.all PyStr.any]. intros H.
  apply andb_true_iff in H as [Hc Hp]. specialize (IH Hp).
  destruct (allowed_cases _ Hc) as [Hd | [-> | ->]].
  - rewrite (remove_cons_digit _ _ Hd), Hd. split; discriminate.
  - rewrite remove_cons_hyphen. exact IH.
  - rewrite remove_cons_blank. exact IH.
Qed.

(** The canonical phone subject of the specification: non-empty, and
    every character a decimal digit. *)
Definition Phone_invariant (s : string) : Prop :=
  s <> "" /\ PyStr.all PyStr.isdecimal s = true.

(** The alphabet the specification gives for raw phone input. *)
Definition digit_hyphen_space (c : ascii) : bool :=
  PyStr.isdecimal c || Ascii.eqb c "-" || Ascii.eqb c " ".

(** Phone normalization as the specification states it, at one input. *)
Definition normalization_as_specified (s : string) : Prop :=
  (SafeChecker._normalize_phone_number s = Err InvalidArgumentError
   /\ PyStr.all digit_hyphen_space (PyStr.strip s) = false)
  \/
  (exists r, SafeChecker._normalize_phone_number s = Ok r
             /\ PyStr.all digit_hyphen_space (PyStr.strip s) = true
             /\ Phone_invariant r).

(** C6, as stated, fails on an input made of separators only: a lone
    hyphen passes the character test and is normalized to the empty
    string, which is not a Phone. *)
Lemma normalize_phone_number_empty_result :
  SafeChecker._normalize_phone_number "-" = Ok ""
  /\ ~ normalization_as_specified "-".
Proof.
  split; [reflexivity|].
  intros [[H _] | (r & H & _ & Hne & _)].
  - discriminate H.
  - vm_compute in H. injection H as <-. now apply Hne.
Qed.

(** C6 (amended): for every input string, phone normalization either
    fails with InvalidArgument, exactly when the trimmed input holds a
    character that is neither a digit ([str.isdigit]), a hyphen nor a
    space, or returns the trimmed input without its hyphens and spaces;
    every character of that result is a digit, a decimal digit when the
    input is ASCII, and the result is empty exactly when the input
    holds no digit. *)
Theorem normalize_phone_number_spec (s : string) :
  (SafeChecker._normalize_phone_number s = Err InvalidArgumentError
   /\ PyStr.all SafeChecker.allowed (PyStr.strip s) = false)
  \/
  (exists r, SafeChecker._normalize_phone_number s = Ok r
             /\ PyStr.all SafeChecker.allowed (PyStr.strip s) = true
             /\ r = canonical s
             /\ PyStr.all PyStr.isdigit r = true
             /\ (PyStr.all PyStr.isascii s = true ->
                 PyStr.all PyStr.isdecimal r = true)
             /\ (r = "" <-> PyStr.any PyStr.isdigit s = false)).
Proof.
  rewrite normalize_unfold.
  destruct (PyStr.all SafeChecker.allowed (PyStr.strip s)) eqn:E.
  - right. exists (canonical s). unfold canonical.
    pose proof (stripped_digits _ E) as Hd.
    repeat split; trivial.
    + intros Ha.
      apply all_impl with (p := fun c => PyStr.isdigit c && PyStr.isascii c).
      * intros c H. apply andb_true_iff in H as [H1 H2]. now apply isdigit_ascii.
      * apply all_and; [exact Hd|].
        now apply all_remove, all_remove, all_strip.
    + intros H. rewrite <- (any_strip _ s isdigit_not_space).
      now apply stripped_empty.
    + intros H. rewrite <- (any_strip _ s isdigit_not_space) in H.
      now apply stripped_empty.
  - left. split; reflexivity.
Qed.

(** C9: phone normalization is idempotent: on every input on which it
    succeeds, normalizing its output succeeds and returns that output. *)
Theorem normalize_phone_number_idempotent (s r : string) :
  SafeChecker._normalize_phone_number s = Ok r ->
  SafeChecker._normalize_phone_number r = Ok r.
Proof.
  rewrite normalize_unfold.
  destruct (PyStr.all SafeChecker.allowed (PyStr.strip s)) eqn:E; [|discriminate].
  intros H. injection H as <-.
  pose proof (stripped_digits _ E) as Hd. fold (canonical s) in Hd.
  assert (Hs : PyStr.strip (canonical s) = canonical s).
  { apply strip_no_space. revert Hd. apply all_impl.
    intros c H. now rewrite (isdigit_not_space _ H). }
  rewrite normalize_unfold, Hs.
  assert (Ha : PyStr.all SafeChecker.allowed (canonical s) = true).
  { revert Hd. apply all_impl. intros c H. unfold SafeChecker.allowed. now rewrite H. }
  rewrite Ha. f_equal. unfold canonical at 1. rewrite Hs.
  rewrite (remove_absent "-").
  - apply remove_absent. revert Hd. apply all_impl.
    intros c H. now rewrite (isdigit_not_blank _ H).
  - revert Hd. apply all_impl.
    intros c H. now rewrite (isdigit_not_hyphen _ H).
Qed.

Lemma normalize_phone_number_idempotent_witness :
  SafeChecker._normalize_phone_number " 010-9256 3688 " = Ok "01092563688"
  /\ SafeChecker._normalize_phone_number "01092563688" = Ok "01092563688".
Proof.
  split; [reflexivity|].
  apply (normalize_phone_number_idempotent " 010-9256 3688 " "01092563688").
  reflexivity.
Defined.

(** A character of the Latin-1 range that [str.isdigit] accepts and
    that is not a decimal digit passes normalization unchanged. *)
Example normalize_phone_number_superscript :
  let two := String (ascii_of_nat 178) "" in
  SafeChecker._normalize_phone_number two = Ok two
  /\ PyStr.all PyStr.isdecimal two = false.
Proof. split; reflexivity. Qed.

(** ** Running the model *)

Definition answer {A} (r : outcome A * world) : outcome A := fst r.
Definition calls {A} (r : outcome A * world) : history := trace (snd r).
Definition logged (w : world) (es : list event) : world :=
  {| trace := (trace w ++ es)%list; sessions := sessions w |}.

Lemma logged_app w es fs : logged (logged w es) fs = logged w (es ++ fs)%list.
Proof. unfold logged. simpl. now rewrite app_assoc. Qed.

Lemma requests_head_run env u w :
  requests_head env u w =
  match head env (trace w) u with
  | Ok r => (Return r, logged w [HEAD u])
  | Err e => (Raise e, logged w [HEAD u])
  end.
Proof.
  unfold requests_head, bind, history_so_far, emit, lift, logged. simpl.
  destruct (head env (trace w) u); reflexivity.
Qed.

Lemma url_is_safe_run env node u w :
  SafeChecker.url_is_safe env node u w =
  match url_node env (trace w) node u with
  | Ok b => (Return b, logged w [Query node u])
  | Err e => (Raise e, logged w [Query node u])
  end.
Proof.
  unfold SafeChecker.url_is_safe, bind, history_so_far, emit, lift, logged. simpl.
  destruct (url_node env (trace w) node u); reflexivity.
Qed.

Lemma driver_run env c w :
  driver env c w =
  match browser env (trace w) c with
  | Ok el => (Return el, logged w [Driver c])
  | Err e => (Raise e, logged w [Driver c])
  end.
Proof.
  unfold driver, bind, history_so_far, emit, lift, logged. simpl.
  destruct (browser env (trace w) c); reflexivity.
Qed.

(** ** Scheme resolution *)

Definition https_of (u : string) : string := SafeChecker._ensure_scheme u "https".
Definition http_of (u : string) : string := SafeChecker._ensure_scheme u "http".

Lemma prefix_append (p s : string) : String.prefix p (p ++ s) = true.
Proof.
  induction p as [|c p IH]; simpl; [apply prefix_empty|].
  destruct (ascii_dec c c); [exact IH|contradiction].
Qed.

Lemma append_assoc' (a b c : string) : (a ++ b) ++ c = a ++ (b ++ c).
Proof. induction a as [|x a IH]; simpl; [reflexivity|]. now rewrite IH. Qed.

Lemma ensure_scheme_startswith (u scheme : string) :
  PyStr.startswith (SafeChecker._ensure_scheme u scheme) (scheme ++ "://") = true.
Proof.
  unfold SafeChecker._ensure_scheme.
  destruct (PyStr.startswith u (scheme ++ "://")) eqn:E; cbn [negb]; [exact E|].
  unfold PyStr.startswith. rewrite <- append_assoc'. apply prefix_append.
Qed.

(** The outcome of [_get_url_with_scheme], by the answers to its probes. *)
Lemma get_url_with_scheme_run env u w :
  SafeChecker._get_url_with_scheme env u w =
  match head env (trace w) (https_of u) with
  | Ok _ => (Return (https_of u), logged w [HEAD (https_of u)])
  | Err Timeout => (Raise URLTimeoutError, logged w [HEAD (https_of u)])
  | Err RequestException =>
      match head env (trace w ++ [HEAD (https_of u)])%list (http_of u) with
      | Ok _ => (Return (http_of u), logged w [HEAD (https_of u); HEAD (http_of u)])
      | Err Timeout =>
          (Raise URLTimeoutError, logged w [HEAD (https_of u); HEAD (http_of u)])
      | Err RequestException =>
          (Raise InvalidSchemeError, logged w [HEAD (https_of u); HEAD (http_of u)])
      | Err e => (Raise e, logged w [HEAD (https_of u); HEAD (http_of u)])
      end
  | Err e => (Raise e, logged w [HEAD (https_of u)])
  end.
Proof.
  unfold SafeChecker._get_url_with_scheme, bind, try_except.
  fold (https_of u). fold (http_of u).
  rewrite requests_head_run.
  destruct (head env (trace w) (https_of u)) as [r|e]; [reflexivity|].
  destruct e; try reflexivity.
  cbv beta iota. unfold ret at 1. cbv beta iota.
  rewrite requests_head_run. rewrite logged_app. simpl.
  destruct (head env (trace w ++ [HEAD (https_of u)])%list (http_of u)) as [r|e];
    [reflexivity|].
  destruct e; reflexivity.
Qed.

(** Some environments.  [offline]: nothing answers. *)
Definition offline : Env := {|
  head := fun _ _ => Err RequestException;
  post := fun _ _ _ => Err RequestException;
  url_node := fun _ _ _ => Err RequestException;
  browser := fun _ _ => Err WebDriverException
|}.

(** [slow]: every probe runs into its time-out. *)
Definition slow : Env := {|
  head := fun _ _ => Err Timeout;
  post := post offline;
  url_node := url_node offline;
  browser := browser offline
|}.

Definition ok_200 (u : string) : response :=
  {| status_code := 200; response_url := u |}.

(** [plain_http verdicts]: hosts refuse TLS connections and answer
    plain HTTP with status 200; the URL checker nodes answer with
    [verdicts]. *)
Definition plain_http (verdicts : string -> bool) : Env := {|
  head := fun _ u =>
    if PyStr.startswith u "https://" then Err RequestException else Ok (ok_200 u);
  post := post offline;
  url_node := fun _ node _ => Ok (verdicts node);
  browser := browser offline
|}.

(** Scheme resolution as the specification states it, at one URL: when
    the https probe fails, by a network failure or by a time-out, the
    http variant is probed, and adopted if that probe succeeds. *)
Definition fallback_as_specified (env : Env) (u : string) : Prop :=
  forall e,
    head env [] (https_of u) = Err e ->
    e = RequestException \/ e = Timeout ->
    In (HEAD (http_of u)) (calls (SafeChecker._get_url_with_scheme env u world0))
    /\ (forall r,
          head env [HEAD (https_of u)] (http_of u) = Ok r ->
          answer (SafeChecker._get_url_with_scheme env u world0) = Return (http_of u)).

(** C3, as stated, fails when the https probe times out: resolution
    ends there with URLTimeoutError and the http variant is never
    probed. *)
Lemma get_url_with_scheme_timeout_no_fallback :
  SafeChecker._get_url_with_scheme slow "example.com" world0
  = (Raise URLTimeoutError,
     {| trace := [HEAD "https://example.com"]; sessions := 0 |})
  /\ ~ fallback_as_specified slow "example.com".
Proof.
  split; [reflexivity|].
  intros H. destruct (H Timeout) as [Hin _]; [reflexivity|now right|].
  vm_compute in Hin. destruct Hin as [Hin|[]]. discriminate Hin.
Qed.

(** C3 (amended): during scheme resolution, for every URL whose https
    probe fails with a network failure that is not a time-out, the http
    variant is probed next, and if that probe succeeds the subject is
    the http-scheme form; when the https probe times out, resolution
    ends with URLTimeoutError and the http variant is not probed. *)
Theorem get_url_with_scheme_fallback (env : Env) (u : string) (w : world) :
  (head env (trace w) (https_of u) = Err RequestException ->
   calls (SafeChecker._get_url_with_scheme env u w)
   = (trace w ++ [HEAD (https_of u); HEAD (http_of u)])%list
   /\ (forall r,
         head env (trace w ++ [HEAD (https_of u)])%list (http_of u) = Ok r ->
         SafeChecker._get_url_with_scheme env u w
         = (Return (http_of u), logged w [HEAD (https_of u); HEAD (http_of u)])
         /\ PyStr.startswith (http_of u) "http://" = true))
  /\
  (head env (trace w) (https_of u) = Err Timeout ->
   SafeChecker._get_url_with_scheme env u w
   = (Raise URLTimeoutError, logged w [HEAD (https_of u)])).
Proof.
  rewrite get_url_with_scheme_run. split.
  - intros ->. split.
    + destruct (head env (trace w ++ [HEAD (https_of u)])%list (http_of u)) as [r|e];
        [reflexivity|]. destruct e; reflexivity.
    + intros r ->. split; [reflexivity|].
      apply (ensure_scheme_startswith u "http").
  - intros ->. reflexivity.
Qed.

Lemma get_url_with_scheme_fallback_witness :
  SafeChecker._get_url_with_scheme (plain_http (fun _ => true)) "r3born.cc" world0
  = (Return "http://r3born.cc",
     {| trace := [HEAD "https://r3born.cc"; HEAD "http://r3born.cc"];
        sessions := 0 |})
  /\ SafeChecker._get_url_with_scheme slow "r3born.cc" world0
     = (Raise URLTimeoutError,
        {| trace := [HEAD "https://r3born.cc"]; sessions := 0 |}).
Proof.
  split.
  - apply (proj1 (get_url_with_scheme_fallback
                    (plain_http (fun _ => true)) "r3born.cc" world0)
             eq_refl)
      with (r := ok_200 "http://r3born.cc").
    reflexivity.
  - apply (proj2 (get_url_with_scheme_fallback slow "r3born.cc" world0)).
    reflexivity.
Defined.

(** ** Inaccessible targets *)

Lemma expand_short_url_run env v w :
  SafeChecker._expand_short_url env v w =
  match head env (trace w) v with
  | Err Timeout => (Raise URLTimeoutError, logged w [HEAD v])
  | Err e => (Raise e, logged w [HEAD v])
  | Ok r =>
      if (status_code r =? 404)%nat then (Raise URLNotFoundError, logged w [HEAD v])
      else if ((status_code r =? 301) || (status_code r =? 302))%nat
           then (Return (response_url r), logged w [HEAD v])
           else (Return v, logged w [HEAD v])
  end.
Proof.
  unfold SafeChecker._expand_short_url, bind, try_except.
  rewrite requests_head_run.
  destruct (head env (trace w) v) as [r|e].
  - destruct (status_code r =? 404)%nat; [reflexivity|].
    destruct ((status_code r =? 301) || (status_code r =? 302))%nat; reflexivity.
  - destruct e; reflexivity.
Qed.

Lemma preprocess_url_run env url w :
  SafeChecker._preprocess_url env url w =
  if SafeChecker._is_url (PyStr.strip url) then
    match SafeChecker._get_url_with_scheme env (PyStr.strip url) w with
    | (Return v, w') => SafeChecker._expand_short_url env v w'
    | (Raise e, w') => (Raise e, w')
    | (OutOfFuel, w') => (OutOfFuel, w')
    end
  else (Raise InvalidArgumentError, w).
Proof.
  unfold SafeChecker._preprocess_url. cbv zeta.
  destruct (SafeChecker._is_url (PyStr.strip url)); cbn [negb]; [|reflexivity].
  unfold bind.
  destruct (SafeChecker._get_url_with_scheme env (PyStr.strip url) w) as [[v|e|] w'];
    try reflexivity.
  destruct (SafeChecker._expand_short_url env v w') as [[x|e|] w'']; reflexivity.
Qed.

(** The three failures of preprocessing that the policy turns into a
    verdict. *)
Definition harmless (e : exn) : bool :=
  match e with
  | URLNotFoundError | URLTimeoutError | InvalidSchemeError => true
  | _ => false
  end.

Lemma check_url_safety_harmless self env url w e w' :
  SafeChecker._preprocess_url env url w = (Raise e, w') ->
  harmless e = true ->
  SafeChecker.check_url_safety self env url w
  = (Return (true, "URL is not accessible"), w').
Proof.
  intros H He. unfold SafeChecker.check_url_safety, bind, try_except.
  rewrite H. destruct e; try discriminate He; reflexivity.
Qed.

(** Scheme resolution succeeds on [u], from history [h], with the
    subject [v] and the history [h']. *)
Inductive resolved (env : Env) (h : history) (u : string)
  : string -> history -> Prop :=
| resolved_https r :
    head env h (https_of u) = Ok r ->
    resolved env h u (https_of u) (h ++ [HEAD (https_of u)])%list
| resolved_http r :
    head env h (https_of u) = Err RequestException ->
    head env (h ++ [HEAD (https_of u)])%list (http_of u) = Ok r ->
    resolved env h u (http_of u) (h ++ [HEAD (https_of u); HEAD (http_of u)])%list.

(** The target [u] is inaccessible, from history [h]: unreachable under
    both schemes; or a probe of scheme resolution times out; or the
    probe of the expansion step times out or is answered with 404. *)
Inductive inaccessible (env : Env) (h : history) (u : string) : Prop :=
| unreachable :
    head env h (https_of u) = Err RequestException ->
    head env (h ++ [HEAD (https_of u)])%list (http_of u) = Err RequestException ->
    inaccessible env h u
| https_timeout :
    head env h (https_of u) = Err Timeout ->
    inaccessible env h u
| http_timeout :
    head env h (https_of u) = Err RequestException ->
    head env (h ++ [HEAD (https_of u)])%list (http_of u) = Err Timeout ->
    inaccessible env h u
| expansion_timeout v h' :
    resolved env h u v h' ->
    head env h' v = Err Timeout ->
    inaccessible env h u
| expansion_not_found v h' r :
    resolved env h u v h' ->
    head env h' v = Ok r ->
    status_code r = 404 ->
    inaccessible env h u.

Definition is_probe (e : event) : Prop :=
  match e with
  | HEAD _ => True
  | _ => False
  end.

Lemma resolved_run env u w v h' :
  resolved env (trace w) u v h' ->
  exists probes,
    SafeChecker._get_url_with_scheme env u w = (Return v, logged w probes)
    /\ h' = trace (logged w probes) /\ Forall is_probe probes.
Proof.
  intros H. rewrite get_url_with_scheme_run. inversion H as [r Hr|r Hs Hr]; subst.
  - exists [HEAD (https_of u)]. rewrite Hr. repeat split. repeat constructor.
  - exists [HEAD (https_of u); HEAD (http_of u)]. rewrite Hs, Hr.
    repeat split. repeat constructor.
Qed.

Lemma preprocess_url_inaccessible env url w :
  SafeChecker._is_url (PyStr.strip url) = true ->
  inaccessible env (trace w) (PyStr.strip url) ->
  exists e probes,
    SafeChecker._preprocess_url env url w = (Raise e, logged w probes)
    /\ harmless e = true /\ Forall is_probe probes.
Proof.
  intros Hu H. rewrite preprocess_url_run, Hu.
  set (u := PyStr.strip url) in *.
  destruct H as [Hs Hp | Hs | Hs Hp | v h' Hr Ht | v h' r Hr Hv H404].
  - rewrite get_url_with_scheme_run, Hs, Hp.
    exists InvalidSchemeError, [HEAD (https_of u); HEAD (http_of u)].
    repeat split. repeat constructor.
  - rewrite get_url_with_scheme_run, Hs.
    exists URLTimeoutError, [HEAD (https_of u)]. repeat split. repeat constructor.
  - rewrite get_url_with_scheme_run, Hs, Hp.
    exists URLTimeoutError, [HEAD (https_of u); HEAD (http_of u)].
    repeat split. repeat constructor.
  - destruct (resolved_run _ _ _ _ _ Hr) as (probes & -> & -> & Hprobes).
    rewrite expand_short_url_run, Ht, logged_app.
    exists URLTimeoutError, (probes ++ [HEAD v])%list. repeat split.
    apply Forall_app. split; [exact Hprobes|repeat constructor].
  - destruct (resolved_run _ _ _ _ _ Hr) as (probes & -> & -> & Hprobes).
    rewrite expand_short_url_run, Hv, H404, logged_app. cbn [Nat.eqb].
    exists URLNotFoundError, (probes ++ [HEAD v])%list. repeat split.
    apply Forall_app. split; [exact Hprobes|repeat constructor].
Qed.

(** C7: for every URL input that passes the grammar, if the target is
    unreachable under both https and http, or a probe times out, or the
    expansion probe is answered with 404, [check_url_safety] does not
    fail: it returns safe=true with the report "URL is not accessible",
    whatever the override lists hold, and the only external calls made
    are probes: no node is queried. *)
Theorem check_url_safety_inaccessible
  (self : SafeChecker.t) (env : Env) (url : string) (w : world) :
  SafeChecker._is_url (PyStr.strip url) = true ->
  inaccessible env (trace w) (PyStr.strip url) ->
  exists probes,
    SafeChecker.check_url_safety self env url w
    = (Return (true, "URL is not accessible"), logged w probes)
    /\ Forall is_probe probes.
Proof.
  intros Hu H.
  destruct (preprocess_url_inaccessible env url w Hu H) as (e & probes & Hp & He & Hf).
  exists probes. split; [|exact Hf].
  now apply check_url_safety_harmless with (e := e).
Qed.

Lemma check_url_safety_inaccessible_witness :
  SafeChecker._is_url (PyStr.strip " r3born.cc ") = true
  /\ exists probes,
       SafeChecker.check_url_safety SafeChecker.__init__ offline " r3born.cc " world0
       = (Return (true, "URL is not accessible"), logged world0 probes)
       /\ Forall is_probe probes.
Proof.
  split; [reflexivity|].
  apply (check_url_safety_inaccessible SafeChecker.__init__ offline " r3born.cc " world0).
  - reflexivity.
  - apply unreachable; reflexivity.
Defined.

(** ** Consensus *)

(** The three nodes, queried in order from [w], all return a verdict. *)
Inductive verdicts (n1 n2 n3 : M bool) (w : world)
  : bool -> bool -> bool -> world -> Prop :=
| all_answer b1 w1 b2 w2 b3 w3 :
    n1 w = (Return b1, w1) ->
    n2 w1 = (Return b2, w2) ->
    n3 w2 = (Return b3, w3) ->
    verdicts n1 n2 n3 w b1 b2 b3 w3.

(** One of the three nodes, queried in order from [w], raises [e];
    the nodes after it are not queried. *)
Inductive node_error (n1 n2 n3 : M bool) (w : world) : exn -> world -> Prop :=
| first_raises e w1 :
    n1 w = (Raise e, w1) ->
    node_error n1 n2 n3 w e w1
| second_raises b1 w1 e w2 :
    n1 w = (Return b1, w1) ->
    n2 w1 = (Raise e, w2) ->
    node_error n1 n2 n3 w e w2
| third_raises b1 w1 b2 w2 e w3 :
    n1 w = (Return b1, w1) ->
    n2 w1 = (Return b2, w2) ->
    n3 w2 = (Raise e, w3) ->
    node_error n1 n2 n3 w e w3.

Definition word (node_ok : bool) : string :=
  if node_ok then "ok" else "suspicious".

Definition report_lines (report : string) : list string :=
  PyStr.split PyStr.LF report.

Definition url_lines (b1 b2 b3 : bool) : list string :=
  [ "- Node_1(PhishtankURLSafeChecker): " ++ word b1;
    "- Node_2(WhoXYURLSafeChecker): " ++ word b2;
    "- Node_3(KISAURLSafeChecker): " ++ word b3 ].

Definition phone_lines (b1 b2 b3 : bool) : list string :=
  [ "- Node_1(OneOneFourPhoneSafeChecker): " ++ word b1;
    "- Node_2(TheCallPhoneSafeChecker): " ++ word b2;
    "- Node_3(MissedCallPhoneSafeChecker): " ++ word b3 ].

(** The subject is an entry of none of the override lists. *)
Definition unlisted (self : SafeChecker.t) (subject : string) : Prop :=
  PyStr.contains (SafeChecker._phone_whitelist self) subject = false
  /\ PyStr.contains (SafeChecker._phone_blacklist self) subject = false
  /\ PyStr.contains (SafeChecker._url_whitelist self) subject = false
  /\ PyStr.contains (SafeChecker._url_blacklist self) subject = false.

Lemma check_phone_safety_normalized self env phone_number p w :
  SafeChecker._normalize_phone_number phone_number = Ok p ->
  SafeChecker.check_phone_safety self env phone_number w =
  try_except
    (if PyStr.contains (SafeChecker._phone_whitelist self) p
     then ret (true, "Valid phone number which listed on whitelist")
     else if PyStr.contains (SafeChecker._phone_blacklist self) p
     then ret (false, "Invalid phone number which listed on blacklist")
     else
       node_1_ok <- OneOneFourPhoneSafeChecker.is_safe env p ;;
       node_2_ok <- TheCallPhoneSafeChecker.is_safe env p ;;
       node_3_ok <- MissedCallPhoneSafeChecker.is_safe env p ;;
       ret (if node_1_ok && node_2_ok && node_3_ok then true else false,
            SafeChecker.join_reports
              [SafeChecker.node_report "Node_1" "OneOneFourPhoneSafeChecker" node_1_ok;
               SafeChecker.node_report "Node_2" "TheCallPhoneSafeChecker" node_2_ok;
               SafeChecker.node_report "Node_3" "MissedCallPhoneSafeChecker" node_3_ok]))
    (fun _ => raise OperationFailedError) w.
Proof.
  intros H. unfold SafeChecker.check_phone_safety.
  unfold bind at 1. unfold try_except at 1. rewrite H. reflexivity.
Qed.

Lemma check_url_safety_preprocessed self env url w0 u w :
  SafeChecker._preprocess_url env url w0 = (Return u, w) ->
  SafeChecker.check_url_safety self env url w0 =
  try_except
    (if PyStr.contains (SafeChecker._phone_whitelist self) u
     then ret (true, "Valid url which listed on whitelist")
     else if PyStr.contains (SafeChecker._phone_blacklist self) u
     then ret (false, "Invalid url which listed on blacklist")
     else
       node_1_ok <- SafeChecker.url_is_safe env "Node_1" u ;;
       node_2_ok <- SafeChecker.url_is_safe env "Node_2" u ;;
       node_3_ok <- SafeChecker.url_is_safe env "Node_3" u ;;
       ret (if node_1_ok && node_2_ok && node_3_ok then true else false,
            SafeChecker.join_reports
              [SafeChecker.node_report "Node_1" "PhishtankURLSafeChecker" node_1_ok;
               SafeChecker.node_report "Node_2" "WhoXYURLSafeChecker" node_2_ok;
               SafeChecker.node_report "Node_3" "KISAURLSafeChecker" node_3_ok]))
    (fun _ => raise OperationFailedError) w.
Proof.
  intros H. unfold SafeChecker.check_url_safety.
  unfold bind at 1. unfold try_except at 1. unfold bind at 1. rewrite H. reflexivity.
Qed.

(** What the consensus block does with three nodes, whatever they are. *)
Lemma consensus_verdicts (n1 n2 n3 : M bool) (mk : bool -> bool -> bool -> bool * string)
  w b1 b2 b3 w' :
  verdicts n1 n2 n3 w b1 b2 b3 w' ->
  try_except
    (x1 <- n1 ;; x2 <- n2 ;; x3 <- n3 ;; ret (mk x1 x2 x3))
    (fun _ => raise OperationFailedError) w
  = (Return (mk b1 b2 b3), w').
Proof.
  intros [? ? ? ? ? ? H1 H2 H3]. unfold try_except, bind. now rewrite H1, H2, H3.
Qed.

Lemma consensus_node_error (n1 n2 n3 : M bool) (mk : bool -> bool -> bool -> bool * string)
  w e w' :
  node_error n1 n2 n3 w e w' ->
  try_except
    (x1 <- n1 ;; x2 <- n2 ;; x3 <- n3 ;; ret (mk x1 x2 x3))
    (fun _ => raise OperationFailedError) w
  = (Raise OperationFailedError, w').
Proof.
  intros [? ? H1 | ? ? ? ? H1 H2 | ? ? ? ? ? ? H1 H2 H3]; unfold try_except, bind.
  - now rewrite H1.
  - now rewrite H1, H2.
  - now rewrite H1, H2, H3.
Qed.

Lemma phone_report_lines b1 b2 b3 :
  report_lines
    (SafeChecker.join_reports
       [SafeChecker.node_report "Node_1" "OneOneFourPhoneSafeChecker" b1;
        SafeChecker.node_report "Node_2" "TheCallPhoneSafeChecker" b2;
        SafeChecker.node_report "Node_3" "MissedCallPhoneSafeChecker" b3])
  = phone_lines b1 b2 b3.
Proof. destruct b1, b2, b3; reflexivity. Qed.

Lemma url_report_lines b1 b2 b3 :
  report_lines
    (SafeChecker.join_reports
       [SafeChecker.node_report "Node_1" "PhishtankURLSafeChecker" b1;
        SafeChecker.node_report "Node_2" "WhoXYURLSafeChecker" b2;
        SafeChecker.node_report "Node_3" "KISAURLSafeChecker" b3])
  = url_lines b1 b2 b3.
Proof. destruct b1, b2, b3; reflexivity. Qed.

Lemma all_three b1 b2 b3 :
  (if b1 && b2 && b3 then true else false) = true
  <-> b1 = true /\ b2 = true /\ b3 = true.
Proof. destruct b1, b2, b3; simpl; intuition discriminate. Qed.

(** C5: for every subject that no override list matches, when the
    three nodes of its type all return a verdict, the result is safe
    exactly when the three verdicts are true, and the report has exactly
    three lines, for Node_1, Node_2 and Node_3 in this order, each
    ending in "ok" or "suspicious" after its node's verdict. *)
Theorem consensus_strict_and (self : SafeChecker.t) (env : Env) :
  (forall phone_number p w b1 b2 b3 w',
     SafeChecker._normalize_phone_number phone_number = Ok p ->
     PyStr.contains (SafeChecker._phone_whitelist self) p = false ->
     PyStr.contains (SafeChecker._phone_blacklist self) p = false ->
     verdicts (OneOneFourPhoneSafeChecker.is_safe env p)
              (TheCallPhoneSafeChecker.is_safe env p)
              (MissedCallPhoneSafeChecker.is_safe env p) w b1 b2 b3 w' ->
     exists ok report,
       SafeChecker.check_phone_safety self env phone_number w
       = (Return (ok, report), w')
       /\ (ok = true <-> b1 = true /\ b2 = true /\ b3 = true)
       /\ report_lines report = phone_lines b1 b2 b3)
  /\
  (forall url w0 u w b1 b2 b3 w',
     SafeChecker._preprocess_url env url w0 = (Return u, w) ->
     unlisted self u ->
     verdicts (SafeChecker.url_is_safe env "Node_1" u)
              (SafeChecker.url_is_safe env "Node_2" u)
              (SafeChecker.url_is_safe env "Node_3" u) w b1 b2 b3 w' ->
     exists ok report,
       SafeChecker.check_url_safety self env url w0
       = (Return (ok, report), w')
       /\ (ok = true <-> b1 = true /\ b2 = true /\ b3 = true)
       /\ report_lines report = url_lines b1 b2 b3).
Proof.
  split.
  - intros phone_number p w b1 b2 b3 w' Hn Hwl Hbl Hv.
    rewrite (check_phone_safety_normalized _ _ _ _ _ Hn), Hwl, Hbl.
    do 2 eexists. split; [|split].
    + exact (consensus_verdicts _ _ _ _ _ _ _ _ _ Hv).
    + apply all_three.
    + apply phone_report_lines.
  - intros url w0 u w b1 b2 b3 w' Hp (Hwl & Hbl & _ & _) Hv.
    rewrite (check_url_safety_preprocessed _ _ _ _ _ _ Hp), Hwl, Hbl.
    do 2 eexists. split; [|split].
    + exact (consensus_verdicts _ _ _ _ _ _ _ _ _ Hv).
    + apply all_three.
    + apply url_report_lines.
Qed.

(** The environment of a phone lookup: the scam-report service knows no
    report; the first lookup site shows its report marker when
    [reported]; the second shows [page h] as its result element after
    the calls [h]. *)
Definition blank : element := Element "html" "" [].

Definition no_report : scam_response :=
  {| scam_status := 200;
     scam_json := Ok {| whowho := Null; kisa := Null; thecheat := Null |} |}.

Definition lookup_sites (reported : bool) (page : history -> element) : Env := {|
  head := head offline;
  post := fun _ _ _ => Ok no_report;
  url_node := url_node offline;
  browser := fun h c =>
    match c with
    | WaitPresence _ CSS_SELECTOR sel =>
        if PyStr.startswith sel "#content"
        then (if reported then Ok blank else Err TimeoutException)
        else Ok blank
    | WaitPresence _ ID name =>
        if String.eqb name "result_is_spam" then Ok (page h) else Ok blank
    | _ => Ok blank
    end
|}.

Definition result_page (level : string) : element :=
  Element "div" "" [Element "span" "" [Element "sup" level []]].

(** The world after the computation [c], run from [w]. *)
Definition after {A} (c : M A) (w : world) : world := snd (c w).

Lemma consensus_strict_and_witness :
  (exists w' ok report,
     SafeChecker.check_phone_safety SafeChecker.__init__
       (lookup_sites true (fun _ => result_page "(Lv.0)")) "010-1234-5678" world0
     = (Return (ok, report), w')
     /\ (ok = true <-> true = true /\ false = true /\ true = true)
     /\ report_lines report = phone_lines true false true)
  /\
  (exists w' ok report,
     SafeChecker.check_url_safety SafeChecker.__init__
       (plain_http (fun _ => true)) "example.com" world0
     = (Return (ok, report), w')
     /\ (ok = true <-> true = true /\ true = true /\ true = true)
     /\ report_lines report = url_lines true true true).
Proof.
  split.
  - pose (env := lookup_sites true (fun _ => result_page "(Lv.0)")).
    pose (w1 := after (OneOneFourPhoneSafeChecker.is_safe env "01012345678") world0).
    pose (w2 := after (TheCallPhoneSafeChecker.is_safe env "01012345678") w1).
    pose (w3 := after (MissedCallPhoneSafeChecker.is_safe env "01012345678") w2).
    exists w3.
    apply (proj1 (consensus_strict_and SafeChecker.__init__ env)
             "010-1234-5678" "01012345678" world0).
    + vm_compute; reflexivity.
    + vm_compute; reflexivity.
    + vm_compute; reflexivity.
    + apply all_answer with (w1 := w1) (w2 := w2); vm_compute; reflexivity.
  - pose (env := plain_http (fun _ => true)).
    pose (w := after (SafeChecker._preprocess_url env "example.com") world0).
    pose (w1 := after (SafeChecker.url_is_safe env "Node_1" "http://example.com") w).
    pose (w2 := after (SafeChecker.url_is_safe env "Node_2" "http://example.com") w1).
    pose (w3 := after (SafeChecker.url_is_safe env "Node_3" "http://example.com") w2).
    exists w3.
    apply (proj2 (consensus_strict_and SafeChecker.__init__ env)
             "example.com" world0 "http://example.com" w).
    + vm_compute; reflexivity.
    + repeat split.
    + apply all_answer with (w1 := w1) (w2 := w2); vm_compute; reflexivity.
Defined.

(** C8: for every subject that the override tests let through, if one
    of the checker nodes raises during consensus, whatever the
    exception, the whole evaluation fails with OperationFailed: it
    returns no result and no report. *)
Theorem consensus_node_failure (self : SafeChecker.t) (env : Env) :
  (forall phone_number p w e w',
     SafeChecker._normalize_phone_number phone_number = Ok p ->
     PyStr.contains (SafeChecker._phone_whitelist self) p = false ->
     PyStr.contains (SafeChecker._phone_blacklist self) p = false ->
     node_error (OneOneFourPhoneSafeChecker.is_safe env p)
                (TheCallPhoneSafeChecker.is_safe env p)
                (MissedCallPhoneSafeChecker.is_safe env p) w e w' ->
     SafeChecker.check_phone_safety self env phone_number w
     = (Raise OperationFailedError, w'))
  /\
  (forall url w0 u w e w',
     SafeChecker._preprocess_url env url w0 = (Return u, w) ->
     PyStr.contains (SafeChecker._phone_whitelist self) u = false ->
     PyStr.contains (SafeChecker._phone_blacklist self) u = false ->
     node_error (SafeChecker.url_is_safe env "Node_1" u)
                (SafeChecker.url_is_safe env "Node_2" u)
                (SafeChecker.url_is_safe env "Node_3" u) w e w' ->
     SafeChecker.check_url_safety self env url w0
     = (Raise OperationFailedError, w')).
Proof.
  split.
  - intros phone_number p w e w' Hn Hwl Hbl He.
    rewrite (check_phone_safety_normalized _ _ _ _ _ Hn), Hwl, Hbl.
    exact (consensus_node_error _ _ _ _ _ _ _ He).
  - intros url w0 u w e w' Hp Hwl Hbl He.
    rewrite (check_url_safety_preprocessed _ _ _ _ _ _ Hp), Hwl, Hbl.
    exact (consensus_node_error _ _ _ _ _ _ _ He).
Qed.

(** [one_down]: as [plain_http], but the second URL node is out of service. *)
Definition one_down : Env := {|
  head := head (plain_http (fun _ => true));
  post := post offline;
  url_node := fun _ node _ =>
    if String.eqb node "Node_2" then Err (Exception "RequestFailureError")
    else Ok true;
  browser := browser offline
|}.

Lemma consensus_node_failure_witness :
  (exists w',
     SafeChecker.check_phone_safety SafeChecker.__init__ offline "010-1234-5678" world0
     = (Raise OperationFailedError, w'))
  /\
  (exists w',
     SafeChecker.check_url_safety SafeChecker.__init__ one_down "example.com" world0
     = (Raise OperationFailedError, w')).
Proof.
  split.
  - pose (w1 := after (OneOneFourPhoneSafeChecker.is_safe offline "01012345678") world0).
    exists w1.
    apply (proj1 (consensus_node_failure SafeChecker.__init__ offline)
             "010-1234-5678" "01012345678" world0 RequestException).
    + vm_compute; reflexivity.
    + vm_compute; reflexivity.
    + vm_compute; reflexivity.
    + apply first_raises. vm_compute; reflexivity.
  - pose (w := after (SafeChecker._preprocess_url one_down "example.com") world0).
    pose (w1 := after (SafeChecker.url_is_safe one_down "Node_1" "http://example.com") w).
    pose (w2 := after (SafeChecker.url_is_safe one_down "Node_2" "http://example.com") w1).
    exists w2.
    apply (proj2 (consensus_node_failure SafeChecker.__init__ one_down)
             "example.com" world0 "http://example.com" w
             (Exception "RequestFailureError")).
    + vm_compute; reflexivity.
    + vm_compute; reflexivity.
    + vm_compute; reflexivity.
    + apply second_raises with (b1 := true) (w1 := w1); vm_compute; reflexivity.
Defined.

(** ** Override lists *)

(** For a phone subject the whitelist is tested first: a number on the
    whitelist gets the whitelist report, whether or not the blacklist
    holds it too, and no node is queried. *)
Lemma check_phone_safety_whitelist_first self env phone_number p w :
  SafeChecker._normalize_phone_number phone_number = Ok p ->
  PyStr.contains (SafeChecker._phone_whitelist self) p = true ->
  SafeChecker.check_phone_safety self env phone_number w
  = (Return (true, "Valid phone number which listed on whitelist"), w).
Proof.
  intros Hn Hwl. rewrite (check_phone_safety_normalized _ _ _ _ _ Hn), Hwl. reflexivity.
Qed.

Lemma check_phone_safety_blacklist self env phone_number p w :
  SafeChecker._normalize_phone_number phone_number = Ok p ->
  PyStr.contains (SafeChecker._phone_whitelist self) p = false ->
  PyStr.contains (SafeChecker._phone_blacklist self) p = true ->
  SafeChecker.check_phone_safety self env phone_number w
  = (Return (false, "Invalid phone number which listed on blacklist"), w).
Proof.
  intros Hn Hwl Hbl.
  rewrite (check_phone_safety_normalized _ _ _ _ _ Hn), Hwl, Hbl. reflexivity.
Qed.


(** The URL override lists have no part in [check_url_safety]: two
    checkers with the same phone lists give the same result. *)
Lemma check_url_safety_ignores_url_lists (self self' : SafeChecker.t) env url w :
  SafeChecker._phone_whitelist self = SafeChecker._phone_whitelist self' ->
  SafeChecker._phone_blacklist self = SafeChecker._phone_blacklist self' ->
  SafeChecker.check_url_safety self env url w
  = SafeChecker.check_url_safety self' env url w.
Proof.
  intros H1 H2. unfold SafeChecker.check_url_safety. now rewrite H1, H2.
Qed.

(** [online verdicts]: every host answers its probes with status 200 and
    the URL checker nodes answer with [verdicts]. *)
Definition online (verdicts : string -> bool) : Env := {|
  head := fun _ u => Ok (ok_200 u);
  post := post offline;
  url_node := fun _ node _ => Ok (verdicts node);
  browser := browser offline
|}.

(** C1 (the code departs from the claim): the canonical URL
    "http://r3born.cc" is on the URL blacklist of a new checker, yet
    for the input "r3born.cc", resolved to that URL, the three nodes
    are queried and, when they all answer "ok", the result is safe=true
    with their three-line report: the fixed blacklist result is not
    returned. *)
Theorem check_url_safety_r3born_not_blocked :
  PyStr.contains (SafeChecker._url_blacklist SafeChecker.__init__) "http://r3born.cc"
  = true
  /\ SafeChecker.check_url_safety SafeChecker.__init__
       (plain_http (fun _ => true)) "r3born.cc" world0
     = (Return (true,
                SafeChecker.join_reports
                  [ "Node_1(PhishtankURLSafeChecker): ok";
                    "Node_2(WhoXYURLSafeChecker): ok";
                    "Node_3(KISAURLSafeChecker): ok" ]),
        {| trace := [ HEAD "https://r3born.cc"; HEAD "http://r3born.cc";
                      HEAD "http://r3born.cc";
                      Query "Node_1" "http://r3born.cc";
                      Query "Node_2" "http://r3born.cc";
                      Query "Node_3" "http://r3born.cc" ];
           sessions := 0 |}).
Proof. split; vm_compute; reflexivity. Qed.




(** ** Browser Lookup B: the retry loop *)

Import MissedCallPhoneSafeChecker.

Definition wait_result : driver_call := WaitPresence 10 ID "result_is_spam".

(** The spam level read off the result element, as the loop body does. *)
Definition extraction (result_is_spam : element) : result N :=
  match _find_sup result_is_spam with
  | None => Err ExtractLevelFailureError
  | Some sup_element => _extract_level (text sup_element)
  end.

Lemma extract_level_error t e :
  _extract_level t = Err e ->
  e = ExtractLevelFailureError \/ e = Exception "ValueError".
Proof.
  unfold _extract_level, Builtins.int. destruct (search_level t) as [g|].
  - destruct (Builtins.int_max_str_digits <? String.length g)%nat; [|discriminate].
    intros H. injection H as <-. now right.
  - intros H. injection H as <-. now left.
Qed.

(** One pass of the loop whose extraction fails: the loop sleeps three
    seconds and goes round again with one more retry counted. *)
Lemma retry_again env fuel retry_count is_safe w el :
  retry_count < _MAX_RETRIES ->
  browser env (trace w) wait_result = Ok el ->
  extraction el = Err ExtractLevelFailureError ->
  retry env (S fuel) retry_count is_safe w
  = retry env fuel (retry_count + 1) is_safe
      (logged w [Driver wait_result; Sleep 3]).
Proof.
  intros Hlt Hb He. cbn [retry].
  apply Nat.ltb_lt in Hlt. rewrite Hlt.
  unfold bind at 1. unfold try_except at 1. unfold bind at 1.
  fold wait_result. rewrite driver_run, Hb.
  unfold extraction in He.
  destruct (_find_sup el) as [sup|].
  - unfold bind at 1. rewrite He. cbn [lift]. unfold raise at 1.
    unfold bind, time_sleep, emit, ret. cbn.
    unfold logged. cbn. now rewrite <- app_assoc.
  - unfold raise at 1. unfold bind, time_sleep, emit, ret. cbn.
    unfold logged. cbn. now rewrite <- app_assoc.
Qed.

(** One pass whose extraction succeeds leaves the loop with the verdict. *)
Lemma retry_break env fuel retry_count is_safe w el level :
  retry_count < _MAX_RETRIES ->
  browser env (trace w) wait_result = Ok el ->
  extraction el = Ok level ->
  retry env (S fuel) retry_count is_safe w
  = (Return (negb (0 <? level)%N), logged w [Driver wait_result]).
Proof.
  intros Hlt Hb He. cbn [retry].
  apply Nat.ltb_lt in Hlt. rewrite Hlt.
  unfold bind at 1. unfold try_except at 1. unfold bind at 1.
  fold wait_result. rewrite driver_run, Hb.
  unfold extraction in He.
  destruct (_find_sup el) as [sup|]; [|discriminate].
  unfold bind at 1. rewrite He. cbn [lift]. unfold ret at 1.
  destruct (0 <? level)%N; reflexivity.
Qed.

Lemma retry_done env fuel is_safe w :
  retry env fuel _MAX_RETRIES is_safe w = (Return is_safe, w).
Proof. destruct fuel; reflexivity. Qed.

(** When the extraction fails on each of the three attempts the loop
    ends normally, after three waits and three sleeps, and hands back
    the initial verdict [False]: the [raise] of its handler is never
    reached. *)
Lemma retry_exhausted env w el1 el2 el3 :
  let w1 := logged w [Driver wait_result; Sleep 3] in
  let w2 := logged w1 [Driver wait_result; Sleep 3] in
  let w3 := logged w2 [Driver wait_result; Sleep 3] in
  browser env (trace w) wait_result = Ok el1 ->
  extraction el1 = Err ExtractLevelFailureError ->
  browser env (trace w1) wait_result = Ok el2 ->
  extraction el2 = Err ExtractLevelFailureError ->
  browser env (trace w2) wait_result = Ok el3 ->
  extraction el3 = Err ExtractLevelFailureError ->
  retry env _MAX_RETRIES 0 false w = (Return false, w3).
Proof.
  cbv zeta. intros B1 E1 B2 E2 B3 E3.
  assert (H0 : 0 < _MAX_RETRIES) by (unfold _MAX_RETRIES; lia).
  assert (H1 : 0 + 1 < _MAX_RETRIES) by (unfold _MAX_RETRIES; lia).
  assert (H2 : 0 + 1 + 1 < _MAX_RETRIES) by (unfold _MAX_RETRIES; lia).
  unfold _MAX_RETRIES at 1.
  rewrite (retry_again env 2 0 false w el1 H0 B1 E1).
  rewrite (retry_again env 1 (0 + 1) false _ el2 H1 B2 E2).
  rewrite (retry_again env 0 (0 + 1 + 1) false _ el3 H2 B3 E3).
  apply retry_done.
Qed.

(** The loop never runs out of fuel: [_MAX_RETRIES] passes are enough. *)
Lemma retry_total env fuel retry_count is_safe w :
  _MAX_RETRIES <= fuel + retry_count ->
  fst (retry env fuel retry_count is_safe w) <> OutOfFuel.
Proof.
  revert retry_count w.
  induction fuel as [|fuel IH]; intros retry_count w Hle.
  - cbn [retry]. destruct (Nat.ltb_spec retry_count _MAX_RETRIES) as [Hlt|_].
    + simpl in Hle. lia.
    + discriminate.
  - cbn [retry]. destruct (Nat.ltb_spec retry_count _MAX_RETRIES) as [Hlt|_];
      [|discriminate].
    unfold bind at 1. unfold try_except at 1. unfold bind at 1.
    rewrite driver_run.
    destruct (browser env (trace w) (WaitPresence 10 ID "result_is_spam")) as [el|e].
    + destruct (_find_sup el) as [sup|].
      * unfold bind at 1, lift.
        destruct (_extract_level (text sup)) as [level|e] eqn:E.
        -- cbv - [N.ltb]. destruct (0 <? level)%N; discriminate.
        -- apply extract_level_error in E. destruct E as [-> | ->];
             [|cbv; discriminate].
           unfold raise at 1.
           unfold bind at 1, time_sleep, emit. unfold ret at 1.
           apply IH. lia.
      * unfold raise at 1.
        unfold bind at 1, time_sleep, emit. unfold ret at 1.
        apply IH. lia.
    + destruct e; try (cbv; discriminate).
      unfold bind at 1, time_sleep, emit. unfold ret at 1.
      apply IH. lia.
Qed.

(** [flaky_site]: the second lookup site shows a result element with no
    spam level in it, on every attempt; the first site shows no report
    marker. *)
Definition flaky_site : Env :=
  lookup_sites false (fun _ => Element "div" "" [Element "span" "loading" []]).

Definition missed_call_trace (phone_number : string) : history :=
  [ Driver Chrome; Driver Stealth; Driver (Get "http://www.missed-call.com/");
    Driver (WaitPresence 10 ID "pnum"); Driver (SendKeys phone_number);
    Driver (FindElement ID "submitButton"); Driver Click;
    Driver wait_result; Sleep 3;
    Driver wait_result; Sleep 3;
    Driver wait_result; Sleep 3;
    Quit ].

(** C2 (the code departs from the claim): when the spam-level
    extraction fails on each of the three attempts, Browser Lookup B
    does not raise: after the third sleep it closes the session and
    returns the verdict [False]; the consensus then reports Node_3 as
    "suspicious" and returns safe=false instead of failing with
    OperationFailed. *)
Theorem missed_call_exhausted_returns_verdict :
  MissedCallPhoneSafeChecker.is_safe flaky_site "01012345678" world0
  = (Return false,
     {| trace := missed_call_trace "01012345678"; sessions := 0 |})
  /\ answer (SafeChecker.check_phone_safety SafeChecker.__init__
               flaky_site "010-1234-5678" world0)
     = Return (false,
               SafeChecker.join_reports
                 [ "Node_1(OneOneFourPhoneSafeChecker): ok";
                   "Node_2(TheCallPhoneSafeChecker): ok";
                   "Node_3(MissedCallPhoneSafeChecker): suspicious" ]).
Proof. split; vm_compute; reflexivity. Qed.

(** A transient failure is recovered from: two failed extractions, then
    a level of zero. *)
Example missed_call_recovers :
  let page (h : history) :=
    if (length h <? 11)%nat then Element "div" "" [] else result_page "(Lv.0)" in
  answer (MissedCallPhoneSafeChecker.is_safe (lookup_sites false page)
            "01012345678" world0)
  = Return true.
Proof. vm_compute. reflexivity. Qed.

(** ** Browser sessions *)

Lemma retry_sessions env fuel retry_count is_safe w :
  sessions (snd (retry env fuel retry_count is_safe w)) = sessions w.
Proof.
  revert retry_count w.
  induction fuel as [|fuel IH]; intros retry_count w; cbn [retry];
    destruct (retry_count <? _MAX_RETRIES)%nat; try reflexivity.
  unfold bind at 1. unfold try_except at 1. unfold bind at 1.
  rewrite driver_run.
  destruct (browser env (trace w) (WaitPresence 10 ID "result_is_spam")) as [el|e].
  - destruct (_find_sup el) as [sup|].
    + unfold bind at 1, lift.
      destruct (_extract_level (text sup)) as [level|e] eqn:E.
      * cbv - [N.ltb app]. destruct (0 <? level)%N; reflexivity.
      * apply extract_level_error in E. destruct E as [-> | ->];
          [|reflexivity].
        unfold raise at 1.
        unfold bind at 1, time_sleep, emit. unfold ret at 1.
        rewrite IH. reflexivity.
    + unfold raise at 1.
      unfold bind at 1, time_sleep, emit. unfold ret at 1.
      rewrite IH. reflexivity.
  - destruct e; try reflexivity.
    unfold bind at 1, time_sleep, emit. unfold ret at 1.
    rewrite IH. reflexivity.
Qed.

(** The sessions a call of [is_safe] is accountable for: the one it
    opens, when the browser starts. *)
Definition opened (env : Env) (w : world) : nat :=
  match browser env (trace w) Chrome with
  | Ok _ => 1
  | Err _ => 0
  end.

(** The session is closed when [is_safe] returns a verdict and is left
    open whenever it raises. *)
Definition session_account {A} (env : Env) (w : world) (r : outcome A * world)
  : Prop :=
  match fst r with
  | Return _ => sessions (snd r) = sessions w
  | Raise _ => sessions (snd r) = sessions w + opened env w
  | OutOfFuel => False
  end.

Ltac answer_browser :=
  repeat (match goal with
          | |- context [browser ?e ?h ?c] => destruct (browser e h c)
          end;
          cbv beta iota zeta; cbn [fst snd sessions trace]).

Lemma the_call_sessions env phone_number w :
  session_account env w (TheCallPhoneSafeChecker.is_safe env phone_number w).
Proof.
  unfold session_account, opened.
  cbv [TheCallPhoneSafeChecker.is_safe bind try_except webdriver_Chrome driver
       history_so_far emit lift ret raise open_session driver_quit close_session].
  cbn [fst snd sessions trace].
  answer_browser; try lia;
    match goal with
    | |- context [match ?e with InvalidArgumentError => _ | _ => _ end] =>
        destruct e; cbn [fst snd sessions trace Nat.pred]; lia
    end.
Qed.

Lemma missed_call_sessions env phone_number w :
  session_account env w (MissedCallPhoneSafeChecker.is_safe env phone_number w).
Proof.
  unfold session_account, opened.
  cbv [MissedCallPhoneSafeChecker.is_safe bind try_except webdriver_Chrome driver
       history_so_far emit lift ret raise open_session driver_quit close_session].
  cbn [fst snd sessions trace].
  repeat (match goal with
          | |- context [browser ?e ?h ?c] =>
              lazymatch c with
              | Chrome => destruct (browser e h c)
              | Stealth => destruct (browser e h c)
              | Get _ => destruct (browser e h c)
              | WaitPresence _ _ "pnum" => destruct (browser e h c)
              | SendKeys _ => destruct (browser e h c)
              | FindElement _ _ => destruct (browser e h c)
              | Click => destruct (browser e h c)
              end
          end;
          cbv beta iota zeta; cbn [fst snd sessions trace]); try lia.
  match goal with
  | |- context [retry ?e ?f ?n ?b ?w0] =>
      pose proof (retry_sessions e f n b w0) as Hs;
      pose proof (retry_total e f n b w0) as Ht;
      destruct (retry e f n b w0) as [[v|x|] w']
  end; cbn [fst snd sessions trace] in *.
  - rewrite Hs. cbn. lia.
  - rewrite Hs. cbn. lia.
  - apply Ht; [unfold _MAX_RETRIES; lia|reflexivity].
Qed.

(** [stalled]: the browser starts, but no page ever shows the awaited
    element. *)
Definition stalled : Env := {|
  head := head offline;
  post := post offline;
  url_node := url_node offline;
  browser := fun _ c =>
    match c with
    | WaitPresence _ _ _ => Err TimeoutException
    | _ => Ok blank
    end
|}.

(** C4 (the code departs from the claim): when the page of a lookup
    site never shows its input field, [is_safe] of each browser-driven
    node propagates the TimeoutException and leaves its session open:
    [driver.quit()] is not called on this path. *)
Theorem is_safe_leaks_session_on_error :
  TheCallPhoneSafeChecker.is_safe stalled "01012345678" world0
  = (Raise TimeoutException,
     {| trace := [ Driver Chrome; Driver Stealth;
                   Driver (Get "https://www.thecall.co.kr/");
                   Driver (WaitPresence 10 CSS_SELECTOR
                     "#sidebar > section.number_search > form > input.stx") ];
        sessions := 1 |})
  /\ MissedCallPhoneSafeChecker.is_safe stalled "01012345678" world0
     = (Raise TimeoutException,
        {| trace := [ Driver Chrome; Driver Stealth;
                      Driver (Get "http://www.missed-call.com/");
                      Driver (WaitPresence 10 ID "pnum") ];
           sessions := 1 |}).
Proof. split; vm_compute; reflexivity. Qed.

(** * Further properties of the code *)

(** ** checker.py: schemes *)

Lemma prefix_split (p s : string) :
  String.prefix p s = true -> exists r, s = p ++ r.
Proof.
  revert s. induction p as [|c p IH]; intros s H.
  - now exists s.
  - destruct s as [|c' s]; [discriminate|]. simpl in H.
    destruct (ascii_dec c c') as [->|]; [|discriminate].
    destruct (IH _ H) as [r ->]. now exists r.
Qed.

(** X1: [_ensure_scheme] is idempotent, and its result always starts
    with the scheme asked for. *)
Theorem ensure_scheme_idempotent (u scheme : string) :
  SafeChecker._ensure_scheme (SafeChecker._ensure_scheme u scheme) scheme
  = SafeChecker._ensure_scheme u scheme
  /\ PyStr.startswith (SafeChecker._ensure_scheme u scheme) (scheme ++ "://") = true.
Proof.
  split; [|apply ensure_scheme_startswith].
  unfold SafeChecker._ensure_scheme at 1.
  now rewrite ensure_scheme_startswith.
Qed.

(** X2: a scheme already written in the input is not replaced by the
    other one.  For an input that starts with "http://" the https
    variant is the input with "https://" put in front, and this is the
    URL probed first; the http variant is the input itself. *)
Theorem explicit_http_probed_behind_https (env : Env) (u : string) (w : world) :
  PyStr.startswith u "http://" = true ->
  https_of u = "https://" ++ u
  /\ http_of u = u
  /\ exists rest,
       calls (SafeChecker._get_url_with_scheme env u w)
       = (trace w ++ HEAD ("https://" ++ u) :: rest)%list.
Proof.
  intros H.
  assert (Hs : https_of u = "https://" ++ u).
  { unfold https_of, SafeChecker._ensure_scheme, PyStr.startswith.
    destruct (prefix_split _ _ H) as [r ->]. reflexivity. }
  split; [exact Hs|]. split.
  - unfold http_of, SafeChecker._ensure_scheme.
    change ("http" ++ "://") with "http://". now rewrite H.
  - rewrite get_url_with_scheme_run, Hs. unfold calls.
    destruct (head env (trace w) ("https://" ++ u)) as [r|e].
    + now exists [].
    + destruct e; try (now exists []).
      destruct (head env (trace w ++ [HEAD ("https://" ++ u)])%list (http_of u))
        as [r|e]; [now exists [HEAD (http_of u)]|].
      destruct e; now exists [HEAD (http_of u)].
Qed.

Lemma explicit_http_probed_behind_https_witness :
  https_of "http://example.com" = "https://http://example.com"
  /\ http_of "http://example.com" = "http://example.com"
  /\ exists rest,
       calls (SafeChecker._get_url_with_scheme (plain_http (fun _ => true))
                "http://example.com" world0)
       = ([] ++ HEAD "https://http://example.com" :: rest)%list.
Proof.
  apply (explicit_http_probed_behind_https (plain_http (fun _ => true))
           "http://example.com" world0).
  vm_compute. reflexivity.
Defined.

(** ** checker.py: what [check_url_safety] does with its input *)

(** X3: an input that fails the grammar, after trimming, is refused
    with InvalidArgument before any external call is made. *)
Theorem check_url_safety_rejects_malformed
  (self : SafeChecker.t) (env : Env) (url : string) (w : world) :
  SafeChecker._is_url (PyStr.strip url) = false ->
  SafeChecker.check_url_safety self env url w = (Raise InvalidArgumentError, w).
Proof.
  intros H. unfold SafeChecker.check_url_safety, bind, try_except.
  rewrite preprocess_url_run, H. reflexivity.
Qed.

Lemma check_url_safety_rejects_malformed_witness :
  SafeChecker.check_url_safety SafeChecker.__init__ (online (fun _ => true))
    " 192.168.0.1 " world0
  = (Raise InvalidArgumentError, world0).
Proof.
  apply (check_url_safety_rejects_malformed SafeChecker.__init__
           (online (fun _ => true)) " 192.168.0.1 " world0).
  vm_compute. reflexivity.
Defined.

(** The outcomes that cross the boundary of the two check operations:
    a result, InvalidArgument or OperationFailed. *)
Definition at_boundary {A} (r : outcome A * world) : Prop :=
  match fst r with
  | Return _ => True
  | Raise e => e = InvalidArgumentError \/ e = OperationFailedError
  | OutOfFuel => False
  end.

Lemma preprocess_url_total env url w :
  fst (SafeChecker._preprocess_url env url w) <> OutOfFuel.
Proof.
  rewrite preprocess_url_run.
  destruct (SafeChecker._is_url (PyStr.strip url)); [|discriminate].
  rewrite get_url_with_scheme_run.
  set (u := PyStr.strip url).
  assert (E : forall v w', fst (SafeChecker._expand_short_url env v w') <> OutOfFuel).
  { intros v w'. rewrite expand_short_url_run.
    destruct (head env (trace w') v) as [r|e].
    - destruct (status_code r =? 404)%nat; [discriminate|].
      destruct ((status_code r =? 301) || (status_code r =? 302))%nat; discriminate.
    - destruct e; discriminate. }
  destruct (head env (trace w) (https_of u)) as [r|e]; [apply E|].
  destruct e; try discriminate.
  destruct (head env (trace w ++ [HEAD (https_of u)])%list (http_of u)) as [r|e];
    [apply E|].
  destruct e; discriminate.
Qed.

Lemma check_url_safety_at_boundary
  (self : SafeChecker.t) (env : Env) (url : string) (w : world) :
  at_boundary (SafeChecker.check_url_safety self env url w).
Proof.
  unfold at_boundary.
  destruct (SafeChecker._preprocess_url env url w) as [[u|e|] w'] eqn:Hp.
  - rewrite (check_url_safety_preprocessed _ _ _ _ _ _ Hp).
    destruct (PyStr.contains (SafeChecker._phone_whitelist self) u); [exact I|].
    destruct (PyStr.contains (SafeChecker._phone_blacklist self) u); [exact I|].
    unfold try_except, bind. rewrite url_is_safe_run.
    destruct (url_node env (trace w') "Node_1" u); [|now right].
    rewrite url_is_safe_run.
    destruct (url_node env _ "Node_2" u); [|now right].
    rewrite url_is_safe_run.
    destruct (url_node env _ "Node_3" u); [exact I|now right].
  - unfold SafeChecker.check_url_safety, bind, try_except. rewrite Hp.
    destruct e; cbn; auto.
  - exfalso. apply (preprocess_url_total env url w). now rewrite Hp.
Qed.

(** X4: whatever the input, the override lists and the environment,
    [check_url_safety] ends with a result, with InvalidArgument or with
    OperationFailed: no other exception leaves it. *)
Theorem check_url_safety_two_failures
  (self : SafeChecker.t) (env : Env) (url : string) (w : world) :
  match answer (SafeChecker.check_url_safety self env url w) with
  | Return _ => True
  | Raise e => e = InvalidArgumentError \/ e = OperationFailedError
  | OutOfFuel => False
  end.
Proof. exact (check_url_safety_at_boundary self env url w). Qed.

(** X5: when scheme resolution succeeds but the probe of the expansion
    step fails with anything but a time-out (a refused connection, say;
    [requests] raises none of the checker's own exceptions), the check
    fails with InvalidArgument: this failure is not folded into the
    "URL is not accessible" verdict. *)
Theorem check_url_safety_expansion_failure
  (self : SafeChecker.t) (env : Env) (url : string) (w : world) v h' e :
  SafeChecker._is_url (PyStr.strip url) = true ->
  resolved env (trace w) (PyStr.strip url) v h' ->
  head env h' v = Err e ->
  e <> Timeout ->
  harmless e = false ->
  answer (SafeChecker.check_url_safety self env url w) = Raise InvalidArgumentError
  /\ calls (SafeChecker.check_url_safety self env url w) = (h' ++ [HEAD v])%list.
Proof.
  intros Hu Hr He Hne Hh.
  destruct (resolved_run _ _ _ _ _ Hr) as (probes & Hg & -> & _).
  unfold SafeChecker.check_url_safety, bind, try_except, answer, calls.
  rewrite preprocess_url_run, Hu, Hg, expand_short_url_run, He.
  destruct e; try contradiction; try discriminate Hh; split; reflexivity.
Qed.

(** [cut_off n]: hosts answer their first [n] probes with status 200
    and refuse every later connection. *)
Definition cut_off (n : nat) : Env := {|
  head := fun h u =>
    if (length h <? n)%nat then Ok (ok_200 u) else Err RequestException;
  post := post offline;
  url_node := fun _ _ _ => Ok true;
  browser := browser offline
|}.

Lemma check_url_safety_expansion_failure_witness :
  answer (SafeChecker.check_url_safety SafeChecker.__init__ (cut_off 1)
            "example.com" world0)
  = Raise InvalidArgumentError
  /\ calls (SafeChecker.check_url_safety SafeChecker.__init__ (cut_off 1)
              "example.com" world0)
     = [HEAD "https://example.com"; HEAD "https://example.com"].
Proof.
  apply (check_url_safety_expansion_failure SafeChecker.__init__ (cut_off 1)
           "example.com" world0 "https://example.com" [HEAD "https://example.com"]
           RequestException).
  - vm_compute. reflexivity.
  - apply (resolved_https (cut_off 1) [] "example.com" (ok_200 "https://example.com")).
    reflexivity.
  - reflexivity.
  - discriminate.
  - reflexivity.
Defined.

(** X6: a 301 or 302 answer to the expansion probe replaces the subject
    by the final location of the response; any answer other than 301,
    302 and 404 leaves the scheme-qualified subject as it is. *)
Theorem preprocess_url_redirect (env : Env) (url : string) (w : world) v h' r :
  SafeChecker._is_url (PyStr.strip url) = true ->
  resolved env (trace w) (PyStr.strip url) v h' ->
  head env h' v = Ok r ->
  status_code r <> 404 ->
  answer (SafeChecker._preprocess_url env url w)
  = Return (if (status_code r =? 301)%nat || (status_code r =? 302)%nat
            then response_url r else v).
Proof.
  intros Hu Hr Hv H404.
  destruct (resolved_run _ _ _ _ _ Hr) as (probes & Hg & -> & _).
  unfold answer. rewrite preprocess_url_run, Hu, Hg, expand_short_url_run, Hv.
  destruct (Nat.eqb_spec (status_code r) 404) as [E|_]; [contradiction|].
  destruct ((status_code r =? 301) || (status_code r =? 302))%nat; reflexivity.
Qed.

(** [shortener target]: every host answers 200, but the second probe of
    a URL (the expansion probe) is answered 302 with [target] as the
    final location. *)
Definition shortener (target : string) : Env := {|
  head := fun h u =>
    if (length h =? 1)%nat
    then Ok {| status_code := 302; response_url := target |}
    else Ok (ok_200 u);
  post := post offline;
  url_node := fun _ _ _ => Ok true;
  browser := browser offline
|}.

Lemma preprocess_url_redirect_witness :
  answer (SafeChecker._preprocess_url (shortener "https://example.com/landing")
            "bit.ly/abc" world0)
  = Return "https://example.com/landing".
Proof.
  apply (preprocess_url_redirect (shortener "https://example.com/landing")
           "bit.ly/abc" world0 "https://bit.ly/abc" [HEAD "https://bit.ly/abc"]
           {| status_code := 302; response_url := "https://example.com/landing" |}).
  - vm_compute. reflexivity.
  - apply (resolved_https _ [] "bit.ly/abc" (ok_200 "https://bit.ly/abc")).
    reflexivity.
  - reflexivity.
  - discriminate.
Defined.

(** ** checker.py: what [check_phone_safety] does with its input *)

(** X7: a phone number on the whitelist is reported safe, and one that
    is only on the blacklist unsafe, each with its fixed report and
    without any external call: no node is queried and no browser
    session is opened. *)
Theorem check_phone_safety_override
  (self : SafeChecker.t) (env : Env) (phone_number p : string) (w : world) :
  SafeChecker._normalize_phone_number phone_number = Ok p ->
  PyStr.contains (SafeChecker._phone_whitelist self) p = true
  \/ PyStr.contains (SafeChecker._phone_blacklist self) p = true ->
  SafeChecker.check_phone_safety self env phone_number w
  = (Return
       (if PyStr.contains (SafeChecker._phone_whitelist self) p
        then (true, "Valid phone number which listed on whitelist")
        else (false, "Invalid phone number which listed on blacklist")),
     w).
Proof.
  intros Hn H.
  destruct (PyStr.contains (SafeChecker._phone_whitelist self) p) eqn:Hwl.
  - now apply check_phone_safety_whitelist_first with (p := p).
  - destruct H as [H|H]; [discriminate|].
    now apply check_phone_safety_blacklist with (p := p).
Qed.

Lemma check_phone_safety_override_witness :
  SafeChecker.check_phone_safety SafeChecker.__init__ offline "010-9256-3688" world0
  = (Return (true, "Valid phone number which listed on whitelist"), world0)
  /\ SafeChecker.check_phone_safety SafeChecker.__init__ offline "010 8253 9451" world0
     = (Return (false, "Invalid phone number which listed on blacklist"), world0).
Proof.
  split.
  - apply (check_phone_safety_override SafeChecker.__init__ offline
             "010-9256-3688" "01092563688" world0).
    + vm_compute. reflexivity.
    + left. vm_compute. reflexivity.
  - apply (check_phone_safety_override SafeChecker.__init__ offline
             "010 8253 9451" "01082539451" world0).
    + vm_compute. reflexivity.
    + right. vm_compute. reflexivity.
Defined.

(** X8: an input with a character that is neither a digit, a hyphen
    nor a space, after trimming, is refused with InvalidArgument before
    any external call is made. *)
Theorem check_phone_safety_rejects_malformed
  (self : SafeChecker.t) (env : Env) (phone_number : string) (w : world) :
  PyStr.all SafeChecker.allowed (PyStr.strip phone_number) = false ->
  SafeChecker.check_phone_safety self env phone_number w
  = (Raise InvalidArgumentError, w).
Proof.
  intros H. unfold SafeChecker.check_phone_safety.
  unfold bind at 1. unfold try_except at 1.
  rewrite normalize_unfold, H. reflexivity.
Qed.

Lemma check_phone_safety_rejects_malformed_witness :
  SafeChecker.check_phone_safety SafeChecker.__init__ offline "+82 10-1234-5678" world0
  = (Raise InvalidArgumentError, world0).
Proof.
  apply (check_phone_safety_rejects_malformed SafeChecker.__init__ offline
           "+82 10-1234-5678" world0).
  vm_compute. reflexivity.
Defined.

Lemma one_one_four_total env phone_number w :
  fst (OneOneFourPhoneSafeChecker.is_safe env phone_number w) <> OutOfFuel.
Proof.
  cbv [OneOneFourPhoneSafeChecker.is_safe OneOneFourPhoneSafeChecker.reported
       OneOneFourPhoneSafeChecker.present requests_post bind try_except
       history_so_far emit lift ret raise].
  cbn [fst snd trace].
  destruct (post env (trace w) _ phone_number) as [r|e]; [|discriminate].
  destruct (negb (scam_status r =? 200)%nat); [discriminate|].
  destruct (scam_json r) as [d|e]; [|discriminate].
  destruct (whowho d), (kisa d), (thecheat d); discriminate.
Qed.

Lemma the_call_total env phone_number w :
  fst (TheCallPhoneSafeChecker.is_safe env phone_number w) <> OutOfFuel.
Proof.
  pose proof (the_call_sessions env phone_number w) as H.
  unfold session_account in H. intros E. now rewrite E in H.
Qed.

Lemma missed_call_total env phone_number w :
  fst (MissedCallPhoneSafeChecker.is_safe env phone_number w) <> OutOfFuel.
Proof.
  pose proof (missed_call_sessions env phone_number w) as H.
  unfold session_account in H. intros E. now rewrite E in H.
Qed.

Lemma check_phone_safety_at_boundary
  (self : SafeChecker.t) (env : Env) (phone_number : string) (w : world) :
  at_boundary (SafeChecker.check_phone_safety self env phone_number w).
Proof.
  unfold at_boundary.
  destruct (SafeChecker._normalize_phone_number phone_number) as [p|e] eqn:Hn.
  - rewrite (check_phone_safety_normalized _ _ _ _ _ Hn).
    destruct (PyStr.contains (SafeChecker._phone_whitelist self) p); [exact I|].
    destruct (PyStr.contains (SafeChecker._phone_blacklist self) p); [exact I|].
    unfold try_except, bind.
    pose proof (one_one_four_total env p w) as T1.
    destruct (OneOneFourPhoneSafeChecker.is_safe env p w) as [[b1|e1|] w1];
      [|now right|now contradiction T1].
    pose proof (the_call_total env p w1) as T2.
    destruct (TheCallPhoneSafeChecker.is_safe env p w1) as [[b2|e2|] w2];
      [|now right|now contradiction T2].
    pose proof (missed_call_total env p w2) as T3.
    destruct (MissedCallPhoneSafeChecker.is_safe env p w2) as [[b3|e3|] w3];
      [exact I|now right|now contradiction T3].
  - unfold SafeChecker.check_phone_safety.
    unfold bind at 1. unfold try_except at 1. rewrite Hn. cbn. now left.
Qed.

(** X9: whatever the input, the override lists and the environment,
    [check_phone_safety] ends with a result, with InvalidArgument or
    with OperationFailed: no exception of a node, of the browser or of
    the HTTP client leaves it. *)
Theorem check_phone_safety_two_failures
  (self : SafeChecker.t) (env : Env) (phone_number : string) (w : world) :
  match answer (SafeChecker.check_phone_safety self env phone_number w) with
  | Return _ => True
  | Raise e => e = InvalidArgumentError \/ e = OperationFailedError
  | OutOfFuel => False
  end.
Proof. exact (check_phone_safety_at_boundary self env phone_number w). Qed.

(** ** server.py: the routes *)

(** The reply a route owes for an outcome of the check behind it. *)
Definition reply_for (o : outcome (bool * string)) : APIServer.reply :=
  match o with
  | Return (ok, report) =>
      {| APIServer.status := 200; APIServer.is_safe := Some ok;
         APIServer.report := Some report |}
  | Raise InvalidArgumentError =>
      {| APIServer.status := 400; APIServer.is_safe := None;
         APIServer.report := None |}
  | _ =>
      {| APIServer.status := 500; APIServer.is_safe := None;
         APIServer.report := None |}
  end.

Lemma route_replies (check : M (bool * string)) (w : world) :
  at_boundary (check w) ->
  try_except
    (r <- check ;;
     let (ok, report) := r in
     ret {| APIServer.status := APIServer.OK;
            APIServer.is_safe := Some ok;
            APIServer.report := Some report |})
    (fun e => match e with
              | InvalidArgumentError =>
                  ret {| APIServer.status := APIServer.BAD_REQUEST;
                         APIServer.is_safe := None;
                         APIServer.report := None |}
              | OperationFailedError =>
                  ret {| APIServer.status := APIServer.INTERNAL_SERVER_ERROR;
                         APIServer.is_safe := None;
                         APIServer.report := None |}
              | _ => raise e
              end) w
  = (Return (reply_for (fst (check w))), snd (check w)).
Proof.
  intros Hb. unfold at_boundary in Hb. unfold try_except, bind.
  destruct (check w) as [[[ok report]|e|] w']; cbn in *.
  - reflexivity.
  - destruct Hb as [-> | ->]; reflexivity.
  - contradiction.
Qed.

(** What a route answers for the value of its field: the reply for the
    check when the value is a string, the reply 400 when it is anything
    else, [None] for a missing key included. *)
Definition field_reply (check : string -> M (bool * string)) (x : json) (w : world)
  : outcome APIServer.reply * world :=
  match x with
  | JStr s => (Return (reply_for (fst (check s w))), snd (check s w))
  | _ => (Return (reply_for (Raise InvalidArgumentError)), w)
  end.

Definition is_dict (data : json) : bool :=
  match data with
  | JDict _ => true
  | _ => false
  end.

(** X10: what the two routes do with a request, from [request.json] on.
    When the body decodes to a JSON object the route never raises: it
    replies 200 with the verdict and report of the check, 400 when the
    check fails with InvalidArgument or the field is missing or not a
    string, 500 when the check fails with OperationFailed, and makes no
    external call beyond those of the check.  When [request.json]
    raises, or the body decodes to anything but an object, the
    exception leaves the route before the check is called. *)
Theorem routes_reply_to_objects
  (checker : SafeChecker.t) (env : Env) (w : world) :
  (forall entries,
     APIServer.check_phone_safety checker env (Ok (JDict entries)) w
     = field_reply (SafeChecker.check_phone_safety checker env)
         (match Py.lookup "phone_number" entries with Some v => v | None => JNull end) w
     /\ APIServer.check_url_safety checker env (Ok (JDict entries)) w
        = field_reply (SafeChecker.check_url_safety checker env)
            (match Py.lookup "url" entries with Some v => v | None => JNull end) w)
  /\ (forall data,
        is_dict data = false ->
        APIServer.check_phone_safety checker env (Ok data) w
        = (Raise Py.AttributeError, w)
        /\ APIServer.check_url_safety checker env (Ok data) w
           = (Raise Py.AttributeError, w))
  /\ (forall e,
        APIServer.check_phone_safety checker env (Err e) w = (Raise e, w)
        /\ APIServer.check_url_safety checker env (Err e) w = (Raise e, w)).
Proof.
  split; [|split].
  - intros entries. split.
    + unfold APIServer.check_phone_safety.
      unfold bind at 1. unfold bind at 1. cbn [lift APIServer.get ret].
      set (x := match Py.lookup "phone_number" entries with
                | Some v => v | None => JNull end).
      replace (lift match Py.lookup "phone_number" entries with
                    | Some v => Ok v | None => Ok JNull end w)
        with (@Return json x, w)
        by (subst x; destruct (Py.lookup "phone_number" entries); reflexivity).
      cbv beta iota. destruct x; try reflexivity.
      exact (route_replies (SafeChecker.check_phone_safety checker env s) w
               (check_phone_safety_at_boundary checker env s w)).
    + unfold APIServer.check_url_safety.
      unfold bind at 1. unfold bind at 1. cbn [lift APIServer.get ret].
      set (x := match Py.lookup "url" entries with
                | Some v => v | None => JNull end).
      replace (lift match Py.lookup "url" entries with
                    | Some v => Ok v | None => Ok JNull end w)
        with (@Return json x, w)
        by (subst x; destruct (Py.lookup "url" entries); reflexivity).
      cbv beta iota. destruct x; try reflexivity.
      exact (route_replies (SafeChecker.check_url_safety checker env s) w
               (check_url_safety_at_boundary checker env s w)).
  - intros data Hd. destruct data; try discriminate Hd; split; reflexivity.
  - intros e. split; reflexivity.
Qed.

(** ** phone.py: reading the spam level *)

Lemma span_digits_app ds c rest :
  PyStr.all PyStr.isdecimal ds = true ->
  PyStr.isdecimal c = false ->
  span_digits (ds ++ String c rest) = (ds, String c rest).
Proof.
  intros Hd Hc. induction ds as [|x ds IH]; cbn [append span_digits].
  - now rewrite Hc.
  - cbn [PyStr.all] in Hd. apply andb_true_iff in Hd as [Hx Hd].
    now rewrite Hx, (IH Hd).
Qed.

Lemma search_level_unfold c s' :
  search_level (String c s') =
  if PyStr.startswith (String c s') "(Lv."
  then match span_digits (PyStr.drop 4 (String c s')) with
       | (String d ds, String ")" _) => Some (String d ds)
       | _ => search_level s'
       end
  else search_level s'.
Proof. reflexivity. Qed.

Lemma search_level_here ds post :
  ds <> "" ->
  PyStr.all PyStr.isdecimal ds = true ->
  search_level (String "(" (String "L" (String "v" (String "."
                 (ds ++ String ")" post)))))
  = Some ds.
Proof.
  intros Hne Hd. rewrite search_level_unfold.
  assert (E : PyStr.startswith
                (String "(" (String "L" (String "v" (String "."
                   (ds ++ String ")" post))))) "(Lv." = true).
  { unfold PyStr.startswith. cbn. apply prefix_empty. }
  rewrite E. cbn [PyStr.drop]. rewrite (span_digits_app ds ")" post Hd eq_refl).
  destruct ds as [|x ds]; [contradiction|reflexivity].
Qed.

(** X12: [_extract_level] reads the leftmost "(Lv.N)" of a text: when
    no opening parenthesis comes before it, the level is the number
    written by the digits N, whatever follows the closing parenthesis;
    when N has more digits than [int] accepts, the ValueError of [int]
    is raised instead. *)
Theorem extract_level_reads_first (pre ds post : string) :
  PyStr.all (fun c => negb (Ascii.eqb c "(")) pre = true ->
  ds <> "" ->
  PyStr.all PyStr.isdecimal ds = true ->
  _extract_level (pre ++ "(Lv." ++ ds ++ ")" ++ post)
  = if (Builtins.int_max_str_digits <? String.length ds)%nat
    then Err (Exception "ValueError")
    else Ok (PyStr.number ds).
Proof.
  intros Hpre Hne Hd. unfold _extract_level.
  assert (H : search_level (pre ++ "(Lv." ++ ds ++ ")" ++ post) = Some ds).
  { induction pre as [|c pre IH].
    - exact (search_level_here ds post Hne Hd).
    - cbn [PyStr.all] in Hpre. apply andb_true_iff in Hpre as [Hc Hpre].
      change ((String c pre) ++ "(Lv." ++ ds ++ ")" ++ post)
        with (String c (pre ++ "(Lv." ++ ds ++ ")" ++ post)).
      rewrite search_level_unfold.
      assert (Hs : PyStr.startswith
                     (String c (pre ++ "(Lv." ++ ds ++ ")" ++ post)) "(Lv." = false).
      { unfold PyStr.startswith. cbn [String.prefix].
        destruct (ascii_dec "(" c) as [<-|]; [discriminate Hc|reflexivity]. }
      rewrite Hs. exact (IH Hpre). }
  rewrite H. reflexivity.
Qed.

Lemma extract_level_reads_first_witness :
  _extract_level ("spam report " ++ "(Lv." ++ "12" ++ ")" ++ " (Lv.3)") = Ok 12%N.
Proof.
  apply (extract_level_reads_first "spam report " "12" " (Lv.3)").
  - reflexivity.
  - discriminate.
  - reflexivity.
Defined.

(** ** phone.py: the retry loop and the verdicts *)

Definition is_wait (e : event) : bool :=
  match e with
  | Driver (WaitPresence 10 ID _) => true
  | _ => false
  end.

Definition is_nap (e : event) : bool :=
  match e with
  | Sleep 3 => true
  | _ => false
  end.

Definition count (f : event -> bool) (es : history) : nat :=
  length (filter f es).

Lemma count_app f es fs : count f (es ++ fs)%list = count f es + count f fs.
Proof. unfold count. now rewrite filter_app, length_app. Qed.

Lemma retry_bounded env fuel retry_count is_safe w :
  exists added,
    snd (retry env fuel retry_count is_safe w) = logged w added
    /\ Forall (fun e => e = Driver wait_result \/ e = Sleep 3) added
    /\ count is_wait added <= _MAX_RETRIES - retry_count
    /\ count is_nap added <= _MAX_RETRIES - retry_count.
Proof.
  revert retry_count w.
  assert (Hnil : forall retry_count w,
            exists added,
              w = logged w added
              /\ Forall (fun e => e = Driver wait_result \/ e = Sleep 3) added
              /\ count is_wait added <= _MAX_RETRIES - retry_count
              /\ count is_nap added <= _MAX_RETRIES - retry_count).
  { intros retry_count w. exists []. repeat split.
    - destruct w. unfold logged. cbn. now rewrite app_nil_r.
    - constructor.
    - change (count is_wait []) with 0. lia.
    - change (count is_nap []) with 0. lia. }
  assert (Hone : forall retry_count w, retry_count < _MAX_RETRIES ->
            exists added,
              logged w [Driver wait_result] = logged w added
              /\ Forall (fun e => e = Driver wait_result \/ e = Sleep 3) added
              /\ count is_wait added <= _MAX_RETRIES - retry_count
              /\ count is_nap added <= _MAX_RETRIES - retry_count).
  { intros retry_count w Hlt. exists [Driver wait_result]. repeat split.
    - repeat constructor.
    - change (count is_wait [Driver wait_result]) with 1. lia.
    - change (count is_nap [Driver wait_result]) with 0. lia. }
  induction fuel as [|fuel IH]; intros retry_count w; cbn [retry];
    destruct (Nat.ltb_spec retry_count _MAX_RETRIES) as [Hlt|Hge];
    try (apply Hnil).
  assert (Hagain :
            exists added,
              snd (retry env fuel (retry_count + 1) is_safe
                     (logged w [Driver wait_result; Sleep 3])) = logged w added
              /\ Forall (fun e => e = Driver wait_result \/ e = Sleep 3) added
              /\ count is_wait added <= _MAX_RETRIES - retry_count
              /\ count is_nap added <= _MAX_RETRIES - retry_count).
  { destruct (IH (retry_count + 1) (logged w [Driver wait_result; Sleep 3]))
      as (added & -> & Hf & Hw & Hn).
    exists ([Driver wait_result; Sleep 3] ++ added)%list.
    rewrite logged_app. repeat split.
    - apply Forall_app. split; [|exact Hf].
      constructor; [now left|]. constructor; [now right|constructor].
    - rewrite count_app.
      change (count is_wait [Driver wait_result; Sleep 3]) with 1. lia.
    - rewrite count_app.
      change (count is_nap [Driver wait_result; Sleep 3]) with 1. lia. }
  assert (Hlog : forall w0 : world,
            {| trace := (trace (logged w0 [Driver wait_result]) ++ [Sleep 3])%list;
               sessions := sessions (logged w0 [Driver wait_result]) |}
            = logged w0 [Driver wait_result; Sleep 3]).
  { intros w0. unfold logged. cbn. now rewrite <- app_assoc. }
  unfold bind at 1. unfold try_except at 1. unfold bind at 1.
  fold wait_result. rewrite driver_run.
  destruct (browser env (trace w) wait_result) as [el|e].
  - destruct (_find_sup el) as [sup|].
    + unfold bind at 1, lift.
      destruct (_extract_level (text sup)) as [level|e] eqn:E.
      * unfold ret at 1. destruct (0 <? level)%N; cbn [snd ret]; now apply Hone.
      * apply extract_level_error in E. destruct E as [-> | ->];
          [|cbn [snd raise]; now apply Hone].
        unfold raise at 1.
        unfold bind at 1, time_sleep, emit. unfold ret at 1.
        rewrite Hlog. exact Hagain.
    + unfold raise at 1.
      unfold bind at 1, time_sleep, emit. unfold ret at 1.
      rewrite Hlog. exact Hagain.
  - destruct e; try (cbn [snd raise]; now apply Hone).
    unfold bind at 1, time_sleep, emit. unfold ret at 1.
    rewrite Hlog. exact Hagain.
Qed.

Definition is_sleep (e : event) : bool :=
  match e with
  | Sleep _ => true
  | _ => false
  end.

Definition sleeps_three (e : event) : Prop :=
  match e with
  | Sleep seconds => seconds = 3
  | _ => True
  end.

Lemma waits_and_naps (added : history) :
  Forall (fun e => e = Driver wait_result \/ e = Sleep 3) added ->
  count is_sleep added = count is_nap added /\ Forall sleeps_three added.
Proof.
  induction 1 as [|e es [-> | ->] _ [IH1 IH2]].
  - split; [reflexivity|constructor].
  - split; [exact IH1|constructor; [exact I|exact IH2]].
  - split; [|constructor; [reflexivity|exact IH2]].
    unfold count in *. cbn [filter is_sleep is_nap length]. now rewrite IH1.
Qed.

(** X13: the retry loop of Browser Lookup B is bounded in every
    environment: it waits for the result element at most
    [_MAX_RETRIES] = 3 times and sleeps at most 3 times, three seconds
    each time. *)
Theorem retry_at_most_three_attempts (env : Env) (w : world) :
  exists added,
    snd (retry env _MAX_RETRIES 0 false w) = logged w added
    /\ count is_wait added <= 3
    /\ count is_sleep added <= 3
    /\ Forall sleeps_three added.
Proof.
  destruct (retry_bounded env _MAX_RETRIES 0 false w) as (added & Hw & Hf & Hc & Hn).
  destruct (waits_and_naps added Hf) as [Hs Ht].
  exists added. rewrite Hs. repeat split; assumption.
Qed.

(** X14: a pass of the loop on which the spam level is read ends the
    loop at once, without sleeping: the verdict is safe exactly when the
    level is zero, whatever the number of failed passes before it. *)
Theorem retry_verdict_is_level_zero
  (env : Env) (fuel retry_count : nat) (is_safe : bool) (w : world) el level :
  retry_count < _MAX_RETRIES ->
  browser env (trace w) wait_result = Ok el ->
  extraction el = Ok level ->
  retry env (S fuel) retry_count is_safe w
  = (Return (level =? 0)%N, logged w [Driver wait_result]).
Proof.
  intros Hlt Hb He.
  rewrite (retry_break env fuel retry_count is_safe w el level Hlt Hb He).
  do 2 f_equal. destruct level; reflexivity.
Qed.

Lemma retry_verdict_is_level_zero_witness :
  retry (lookup_sites false (fun _ => result_page "spam (Lv.7)")) 1 2 false world0
  = (Return false, logged world0 [Driver wait_result]).
Proof.
  apply (retry_verdict_is_level_zero
           (lookup_sites false (fun _ => result_page "spam (Lv.7)")) 0 2 false world0
           (result_page "spam (Lv.7)") 7%N).
  - unfold _MAX_RETRIES. lia.
  - reflexivity.
  - reflexivity.
Defined.

(** X15: each browser-driven node accounts for its session in the same
    way, in every environment: when [is_safe] returns a verdict the
    session it opened is closed; when it raises, the session is still
    open if the browser had started; and it always ends. *)
Theorem browser_nodes_session_account (env : Env) (phone_number : string) (w : world) :
  session_account env w (TheCallPhoneSafeChecker.is_safe env phone_number w)
  /\ session_account env w (MissedCallPhoneSafeChecker.is_safe env phone_number w).
Proof.
  split; [apply the_call_sessions|apply missed_call_sessions].
Qed.

(** The calls of Browser Lookup A up to the search. *)
Definition the_call_setup (phone_number : string) : history :=
  [ Driver Chrome; Driver Stealth; Driver (Get "https://www.thecall.co.kr/");
    Driver (WaitPresence 10 CSS_SELECTOR
              "#sidebar > section.number_search > form > input.stx");
    Driver (SendKeys phone_number);
    Driver (FindElement CSS_SELECTOR
              "#sidebar > section.number_search > form > input.primary-button");
    Driver Click ].

Definition wait_marker : driver_call :=
  WaitPresence 10 CSS_SELECTOR
    "#content-below-adsense-top > div.board-view > article > section > div.article-vote > a:nth-child(1) > span".

(** X16: whenever Browser Lookup A returns a verdict it has made its
    seven set-up calls, waited once for the report marker and closed
    the session; the verdict is unsafe exactly when the marker appeared
    and safe exactly when that wait ran into its TimeoutException. *)
Theorem the_call_verdict (env : Env) (phone_number : string) (w w' : world) (b : bool) :
  TheCallPhoneSafeChecker.is_safe env phone_number w = (Return b, w') ->
  let h := (trace w ++ the_call_setup phone_number)%list in
  w' = logged w (the_call_setup phone_number ++ [Driver wait_marker; Quit])
  /\ (b = false <-> exists el, browser env h wait_marker = Ok el)
  /\ (b = true <-> browser env h wait_marker = Err TimeoutException).
Proof.
  cbv zeta. unfold the_call_setup, wait_marker, logged.
  cbv [TheCallPhoneSafeChecker.is_safe bind try_except webdriver_Chrome driver
       history_so_far emit lift ret raise open_session driver_quit close_session].
  cbn [fst snd sessions trace].
  repeat rewrite <- app_assoc. cbn [app].
  repeat (match goal with
          | |- context [browser ?e ?h ?c] => destruct (browser e h c) eqn:?
          end;
          cbv beta iota zeta; cbn [fst snd sessions trace];
          repeat rewrite <- app_assoc; cbn [app]);
    try discriminate.
  - intros H. injection H as <- <-. cbn [Nat.pred].
    split; [repeat rewrite <- app_assoc; reflexivity|split; split];
      try (intros [el H]; discriminate H); try (intros H; discriminate H);
      try reflexivity; eauto.
  - match goal with
    | |- context [match ?x with InvalidArgumentError => _ | _ => _ end] =>
        destruct x
    end; try discriminate.
    intros H. injection H as <- <-. cbn [Nat.pred].
    split; [repeat rewrite <- app_assoc; reflexivity|split; split];
      try (intros [el H]; discriminate H); try (intros H; discriminate H);
      try reflexivity; eauto.
Qed.

Lemma the_call_verdict_witness :
  let env := lookup_sites true (fun _ => blank) in
  let r := TheCallPhoneSafeChecker.is_safe env "01012345678" world0 in
  snd r = logged world0 (the_call_setup "01012345678" ++ [Driver wait_marker; Quit])
  /\ (false = false <->
      exists el, browser env ([] ++ the_call_setup "01012345678")%list wait_marker = Ok el)
  /\ (false = true <->
      browser env ([] ++ the_call_setup "01012345678")%list wait_marker
      = Err TimeoutException).
Proof.
  cbv zeta.
  apply (the_call_verdict (lookup_sites true (fun _ => blank)) "01012345678" world0).
  vm_compute. reflexivity.
Defined.

Definition scam_url : string := "https://www.114.co.kr/action/search/scam".

Definition is_null (f : field) : bool :=
  match f with
  | Null => true
  | _ => false
  end.

(** X17: the scam-report node makes one POST.  Any status other than
    200 is an error, not a verdict; with status 200 and the three
    sources all present in the answer, the number is safe exactly when
    all three are null. *)
Theorem one_one_four_verdict
  (env : Env) (phone_number : string) (w : world) (response : scam_response) :
  post env (trace w) scam_url phone_number = Ok response ->
  calls (OneOneFourPhoneSafeChecker.is_safe env phone_number w)
  = (trace w ++ [POST scam_url phone_number])%list
  /\ (scam_status response <> 200 ->
      answer (OneOneFourPhoneSafeChecker.is_safe env phone_number w)
      = Raise (Exception "Exception"))
  /\ (forall data,
        scam_status response = 200 ->
        scam_json response = Ok data ->
        whowho data <> Missing -> kisa data <> Missing -> thecheat data <> Missing ->
        answer (OneOneFourPhoneSafeChecker.is_safe env phone_number w)
        = Return (is_null (whowho data) && is_null (kisa data)
                  && is_null (thecheat data))).
Proof.
  intros Hp. unfold answer, calls.
  cbv [OneOneFourPhoneSafeChecker.is_safe OneOneFourPhoneSafeChecker.reported
       OneOneFourPhoneSafeChecker.present requests_post bind try_except
       history_so_far emit lift ret raise].
  cbn [fst snd trace]. fold scam_url. rewrite Hp. cbv beta iota.
  split; [|split].
  - destruct (negb (scam_status response =? 200)%nat); [reflexivity|].
    destruct (scam_json response) as [d|e]; [|reflexivity].
    destruct (whowho d), (kisa d), (thecheat d); reflexivity.
  - intros Hs. apply Nat.eqb_neq in Hs. now rewrite Hs.
  - intros data Hs Hj H1 H2 H3. rewrite Hs, Hj. cbn [Nat.eqb negb].
    destruct (whowho data), (kisa data), (thecheat data);
      try contradiction; reflexivity.
Qed.

Lemma one_one_four_verdict_witness :
  let env := lookup_sites false (fun _ => blank) in
  calls (OneOneFourPhoneSafeChecker.is_safe env "01012345678" world0)
  = ([] ++ [POST scam_url "01012345678"])%list
  /\ (scam_status no_report <> 200 ->
      answer (OneOneFourPhoneSafeChecker.is_safe env "01012345678" world0)
      = Raise (Exception "Exception"))
  /\ (forall data,
        scam_status no_report = 200 ->
        scam_json no_report = Ok data ->
        whowho data <> Missing -> kisa data <> Missing -> thecheat data <> Missing ->
        answer (OneOneFourPhoneSafeChecker.is_safe env "01012345678" world0)
        = Return (is_null (whowho data) && is_null (kisa data)
                  && is_null (thecheat data))).
Proof.
  cbv zeta.
  apply (one_one_four_verdict (lookup_sites false (fun _ => blank))
           "01012345678" world0 no_report).
  reflexivity.
Defined.

(** ** url.py: the helpers of the registration heuristics *)

(** Whether a string starts with a decimal digit. *)
Definition digit_first (s : string) : bool :=
  match s with
  | EmptyString => false
  | String c _ => PyStr.isdecimal c
  end.

Lemma append_empty (s : string) : s ++ "" = s.
Proof. induction s as [|c s IH]; cbn; [reflexivity|now rewrite IH]. Qed.

Lemma findall_digits_run run ds rest :
  PyStr.all PyStr.isdecimal ds = true ->
  digit_first rest = false ->
  PhishtankURLSafeChecker.findall_digits run (ds ++ rest)
  = match run ++ ds with
    | EmptyString => PhishtankURLSafeChecker.findall_digits "" rest
    | r => r :: PhishtankURLSafeChecker.findall_digits "" rest
    end.
Proof.
  intros Hd Hc. revert run.
  induction ds as [|x ds IH]; intros run.
  - rewrite append_empty. cbn [append].
    destruct rest as [|c rest].
    + destruct run; reflexivity.
    + cbn [digit_first] in Hc.
      cbn [PhishtankURLSafeChecker.findall_digits]. rewrite Hc.
      destruct run; reflexivity.
  - cbn [PyStr.all] in Hd. apply andb_true_iff in Hd as [Hx Hd].
    cbn [append PhishtankURLSafeChecker.findall_digits]. rewrite Hx.
    rewrite (IH Hd). now rewrite append_assoc'.
Qed.

Lemma findall_digits_skip pre s :
  PyStr.all (fun c => negb (PyStr.isdecimal c)) pre = true ->
  PhishtankURLSafeChecker.findall_digits "" (pre ++ s)
  = PhishtankURLSafeChecker.findall_digits "" s.
Proof.
  induction pre as [|c pre IH]; [reflexivity|].
  cbn [PyStr.all]. intros H. apply andb_true_iff in H as [Hc Hp].
  cbn [append PhishtankURLSafeChecker.findall_digits].
  destruct (PyStr.isdecimal c); [discriminate|]. exact (IH Hp).
Qed.

Lemma findall_digits_none s :
  PyStr.all (fun c => negb (PyStr.isdecimal c)) s = true ->
  PhishtankURLSafeChecker.findall_digits "" s = [].
Proof.
  induction s as [|c s IH]; [reflexivity|].
  cbn [PyStr.all]. intros H. apply andb_true_iff in H as [Hc Hp].
  cbn [PhishtankURLSafeChecker.findall_digits].
  destruct (PyStr.isdecimal c); [discriminate|]. exact (IH Hp).
Qed.

(** X18: [_extract_number_from_string] reads the first run of digits of
    its argument, up to the first character that is not a digit or to
    the end: it returns the number the run writes, or raises the
    ValueError of [int] when the run has more digits than [int]
    accepts; it fails with PhishtankExtractionFailureError when the
    argument holds no digit at all. *)
Theorem extract_number_first_run (pre ds rest : string) :
  PyStr.all (fun c => negb (PyStr.isdecimal c)) pre = true ->
  ds <> "" ->
  PyStr.all PyStr.isdecimal ds = true ->
  digit_first rest = false ->
  PhishtankURLSafeChecker._extract_number_from_string (pre ++ ds ++ rest)
  = (if (Builtins.int_max_str_digits <? String.length ds)%nat
     then Err (Exception "ValueError")
     else Ok (PyStr.number ds))
  /\ PhishtankURLSafeChecker._extract_number_from_string pre
     = Err PhishtankExtractionFailureError.
Proof.
  intros Hpre Hne Hd Hc. unfold PhishtankURLSafeChecker._extract_number_from_string.
  cbv zeta. split.
  - rewrite (findall_digits_skip _ _ Hpre), (findall_digits_run "" ds rest Hd Hc).
    cbn [append]. destruct ds; [contradiction|reflexivity].
  - now rewrite (findall_digits_none _ Hpre).
Qed.

Lemma extract_number_first_run_witness :
  PhishtankURLSafeChecker._extract_number_from_string
    ("every " ++ "300" ++ " seconds, 5 retries")
  = Ok 300%N
  /\ PhishtankURLSafeChecker._extract_number_from_string "every "
     = Err PhishtankExtractionFailureError.
Proof.
  apply (extract_number_first_run "every " "300" " seconds, 5 retries").
  - reflexivity.
  - discriminate.
  - reflexivity.
  - reflexivity.
Defined.

Lemma any_suspicious_existsb (ss : list string) :
  any_suspicious ss = existsb (PyStr.contains suspicious_statuses) ss.
Proof.
  induction ss as [|s ss IH]; [reflexivity|].
  cbn [any_suspicious existsb]. rewrite IH.
  now destruct (PyStr.contains suspicious_statuses s).
Qed.

Lemma existsb_mapped {A B} (f : B -> bool) (g : A -> B) (l : list A) :
  existsb f (map g l) = existsb (fun x => f (g x)) l.
Proof. induction l as [|x l IH]; cbn; [reflexivity|now rewrite IH]. Qed.

Lemma lower_each_strings (ss : list string) :
  Py.lower_each (map JStr ss) = Ok (map Py.lower ss).
Proof.
  induction ss as [|s ss IH]; [reflexivity|].
  cbn [map Py.lower_each Py.lower_of Py.and_then]. now rewrite IH.
Qed.

(** Some item of the list is not a string. *)
Definition has_non_string (items : list json) : bool :=
  existsb (fun x => match x with JStr _ => false | _ => true end) items.

Lemma lower_each_non_string (items : list json) :
  has_non_string items = true -> Py.lower_each items = Err Py.AttributeError.
Proof.
  induction items as [|x items IH]; [discriminate|].
  cbn [has_non_string existsb]. fold (has_non_string items).
  destruct x; cbn [Py.lower_each Py.lower_of Py.and_then orb]; try reflexivity.
  intros H. now rewrite (IH H).
Qed.

(** X19: the two status heuristics read a list of status strings
    without regard to letter case: the domain is flagged exactly when
    one of the statuses, in lower case, is "clienthold" or "inactive". *)
Theorem suspicious_status_ignores_case (ss : list string) (d k : json) :
  ss <> [] ->
  Py.getitem d "domain_status" = Ok (JList (map JStr ss)) ->
  Py.getitem k "domainStatus" = Ok (JList (map JStr ss)) ->
  let flagged :=
    existsb (fun s => PyStr.contains suspicious_statuses (Py.lower s)) ss in
  WhoXYURLSafeChecker._has_suspicious_status d = Ok flagged
  /\ KISAURLSafeChecker._has_suspicious_status k = Ok flagged.
Proof.
  intros Hne Hd Hk. cbv zeta.
  assert (T : Py.truthy (JList (map JStr ss)) = true)
    by (destruct ss; [contradiction|reflexivity]).
  unfold WhoXYURLSafeChecker._has_suspicious_status,
    KISAURLSafeChecker._has_suspicious_status.
  rewrite Hd, Hk. cbn [Py.and_then]. rewrite T. cbn [negb Py.iterate Py.and_then].
  rewrite lower_each_strings. cbn [Py.and_then].
  rewrite any_suspicious_existsb, existsb_mapped. split; reflexivity.
Qed.

Lemma suspicious_status_ignores_case_witness :
  WhoXYURLSafeChecker._has_suspicious_status
    (JDict [("domain_status", JList (map JStr ["ok"; "clientHold"]))])
  = Ok true
  /\ KISAURLSafeChecker._has_suspicious_status
       (JDict [("domainStatus", JList (map JStr ["ok"; "clientHold"]))])
     = Ok true.
Proof.
  apply (suspicious_status_ignores_case ["ok"; "clientHold"]
           (JDict [("domain_status", JList (map JStr ["ok"; "clientHold"]))])
           (JDict [("domainStatus", JList (map JStr ["ok"; "clientHold"]))])).
  - discriminate.
  - reflexivity.
  - reflexivity.
Defined.

(** X20: on a status value that is absent in effect (null, an empty
    list, an empty string, zero, false) the two heuristics part: the
    first provider's fails with ResponseParseFailure, the second's
    answers "not suspicious"; on every other status value they agree. *)
Theorem suspicious_status_siblings (v d k : json) :
  Py.getitem d "domain_status" = Ok v ->
  Py.getitem k "domainStatus" = Ok v ->
  if Py.truthy v
  then WhoXYURLSafeChecker._has_suspicious_status d
       = KISAURLSafeChecker._has_suspicious_status k
  else WhoXYURLSafeChecker._has_suspicious_status d = Err ResponseParseFailure
       /\ KISAURLSafeChecker._has_suspicious_status k = Ok false.
Proof.
  intros Hd Hk.
  unfold WhoXYURLSafeChecker._has_suspicious_status,
    KISAURLSafeChecker._has_suspicious_status.
  rewrite Hd, Hk. cbn [Py.and_then].
  destruct (Py.truthy v); cbn [negb]; [reflexivity|split; reflexivity].
Qed.

Lemma suspicious_status_siblings_witness :
  WhoXYURLSafeChecker._has_suspicious_status (JDict [("domain_status", JList [])])
  = Err ResponseParseFailure
  /\ KISAURLSafeChecker._has_suspicious_status (JDict [("domainStatus", JList [])])
     = Ok false.
Proof.
  apply (suspicious_status_siblings (JList [])
           (JDict [("domain_status", JList [])])
           (JDict [("domainStatus", JList [])])); reflexivity.
Defined.

(** X21: the statuses are all put in lower case before any is looked
    at: a status list with an item that is not a string makes the
    heuristic fail with AttributeError, even when a suspicious status
    stands in the list. *)
Theorem suspicious_status_non_string (items : list json) (d : json) :
  Py.getitem d "domain_status" = Ok (JList items) ->
  has_non_string items = true ->
  WhoXYURLSafeChecker._has_suspicious_status d = Err Py.AttributeError.
Proof.
  intros Hd Hn. unfold WhoXYURLSafeChecker._has_suspicious_status.
  rewrite Hd. cbn [Py.and_then].
  assert (T : Py.truthy (JList items) = true) by (destruct items; [discriminate|reflexivity]).
  rewrite T. cbn [negb Py.iterate Py.and_then].
  now rewrite (lower_each_non_string _ Hn).
Qed.

Lemma suspicious_status_non_string_witness :
  WhoXYURLSafeChecker._has_suspicious_status
    (JDict [("domain_status", JList [JStr "clientHold"; JNull])])
  = Err Py.AttributeError.
Proof.
  apply (suspicious_status_non_string [JStr "clientHold"; JNull]
           (JDict [("domain_status", JList [JStr "clientHold"; JNull])]));
    reflexivity.
Defined.

Lemma lower_app (a b : string) : Py.lower (a ++ b) = Py.lower a ++ Py.lower b.
Proof. induction a as [|c a IH]; cbn; [reflexivity|now rewrite IH]. Qed.

(** X22: the registrant heuristics look for the redaction marker
    without regard to letter case: a registrant name that starts with
    "redacted", in any mix of capitals and small letters, is reported
    anonymous by both providers' heuristics. *)
Theorem anonymized_registrant_ignores_case
  (marker rest : string) (d contact k : json) :
  Py.lower marker = "redacted" ->
  Py.getitem d "registrant_contact" = Ok contact ->
  Py.getitem contact "company_name" = Ok (JStr (marker ++ rest)) ->
  Py.getitem k "regName" = Ok (JStr (marker ++ rest)) ->
  WhoXYURLSafeChecker._has_anonymized_registrant d = Ok true
  /\ KISAURLSafeChecker._has_anonymized_registrant k = Ok true.
Proof.
  intros Hm Hd Hc Hk.
  assert (S : PyStr.startswith (Py.lower (marker ++ rest)) "redacted" = true).
  { rewrite lower_app, Hm. apply prefix_append. }
  assert (T : Py.truthy contact = true).
  { destruct contact; try discriminate Hc. destruct entries; [discriminate Hc|reflexivity]. }
  unfold WhoXYURLSafeChecker._has_anonymized_registrant,
    KISAURLSafeChecker._has_anonymized_registrant.
  rewrite Hd, Hk. cbn [Py.and_then]. rewrite T, Hc.
  cbn [negb Py.and_then Py.lower_of]. rewrite S. split; reflexivity.
Qed.

Lemma anonymized_registrant_ignores_case_witness :
  WhoXYURLSafeChecker._has_anonymized_registrant
    (JDict [("registrant_contact",
             JDict [("company_name", JStr ("REDACTED" ++ " FOR PRIVACY"))])])
  = Ok true
  /\ KISAURLSafeChecker._has_anonymized_registrant
       (JDict [("regName", JStr ("REDACTED" ++ " FOR PRIVACY"))])
     = Ok true.
Proof.
  apply (anonymized_registrant_ignores_case "REDACTED" " FOR PRIVACY"
           (JDict [("registrant_contact",
                    JDict [("company_name", JStr ("REDACTED" ++ " FOR PRIVACY"))])])
           (JDict [("company_name", JStr ("REDACTED" ++ " FOR PRIVACY"))])
           (JDict [("regName", JStr ("REDACTED" ++ " FOR PRIVACY"))]));
    reflexivity.
Defined.

(** The lists written in [__init__] share no entry: no subject is on
    the whitelist and on the blacklist of its type. *)
Lemma init_lists_disjoint (subject : string) :
  PyStr.contains (SafeChecker._phone_whitelist SafeChecker.__init__) subject
  && PyStr.contains (SafeChecker._phone_blacklist SafeChecker.__init__) subject
  = false
  /\ PyStr.contains (SafeChecker._url_whitelist SafeChecker.__init__) subject
     && PyStr.contains (SafeChecker._url_blacklist SafeChecker.__init__) subject
     = false.
Proof.
  unfold PyStr.contains. cbn [SafeChecker.__init__ SafeChecker._phone_whitelist
    SafeChecker._phone_blacklist SafeChecker._url_whitelist
    SafeChecker._url_blacklist existsb].
  rewrite !orb_false_r. split.
  - destruct (String.eqb_spec subject "01092563688") as [->|_]; reflexivity.
  - destruct (String.eqb_spec subject "https://sds.co.kr") as [->|_]; reflexivity.
Qed.
